(** * Secret-scrubbing callbacks: a shallow embedding and its properties

    The three callback bodies under [clean-secrets-callbacks/] are embedded
    as Rocq functions:

    - [message.py]   : module [Message]  (commit-message redaction),
    - [commit.py]    : module [Commit]   (progress ledger),
    - [file-info.py] : module [FileInfo] (blob scrubbing).

    Python [bytes] are lists of [byte]; Python [str] values that can hold
    arbitrary text are lists of code points ([Z]); the effects of a callback
    (log appends, progress-file appends, blob fetches and inserts, module
    globals) are threaded through an explicit world. *)

From Stdlib Require Import ZArith List Lia Strings.String Strings.Ascii Strings.Byte.
From stdpp Require Import base list gmap strings pretty.
From Equations Require Import Equations.

Local Open Scope Z_scope.
Set Warnings "-register-all,-clear-no-such-hyp".

(** ** Python values shared by the three callbacks *)

(** [bytes]: an immutable sequence of octets. *)
Abbreviation bytes := (list byte).

(** A bytes literal [b"..."] with ASCII content. *)
Definition bytes_of (s : string) : bytes := list_byte_of_string s.

#[global] Instance byte_eq_dec : EqDecision byte := Byte.byte_eq_dec.

(** [s.startswith(p)] on bytes. *)
Fixpoint starts_with (p s : bytes) : bool :=
  match p, s with
  | [], _ => true
  | _ :: _, [] => false
  | x :: p', y :: s' => Byte.eqb x y && starts_with p' s'
  end.

(** [p in s] on bytes: some suffix of [s] starts with [p]. *)
Fixpoint bytes_contains (p s : bytes) : bool :=
  match s with
  | [] => starts_with p []
  | _ :: t => starts_with p s || bytes_contains p t
  end.

(** [p] occurs in [s] as a contiguous subsequence. *)
Definition occurs_in (p s : bytes) : Prop := exists a r, s = a ++ p ++ r.

(** The scan of [bytes.replace] for a non-empty pattern: left to right, each
    match is replaced and the scan resumes after it, so matches never
    overlap. *)
Equations? replace_scan (old new s : bytes) : bytes by wf (length s) lt :=
  replace_scan old new [] := [];
  replace_scan old new (c :: t) with starts_with old (c :: t) => {
    | true := new ++ replace_scan old new (drop (length old - 1) t);
    | false := c :: replace_scan old new t }.
Proof. all: rewrite ?length_drop; simpl; lia. Qed.

(** [s.replace(old, new)] on bytes.  With an empty [old], Python inserts
    [new] before every byte and at the end. *)
Definition bytes_replace (old new s : bytes) : bytes :=
  match old with
  | [] => new ++ flat_map (fun c => c :: new) s
  | _ :: _ => replace_scan old new s
  end.

(** ** Effects: a state and exception monad *)

(** The exceptions the callbacks can let escape. *)
Inductive exn :=
| KeyError | OSError | JSONDecodeError | TypeError | AttributeError | UnicodeEncodeError.

(** How a callback body ends: it returns, or an exception propagates to the
    driver, which aborts the run. *)
Inductive outcome (A : Type) :=
| Returned (a : A)
| Raised (e : exn).
Arguments Returned {A} a.
Arguments Raised {A} e.

(** A computation over a world [W]: the world is threaded, and is kept as
    it was when an exception is raised (nothing is rolled back). *)
Definition M (W A : Type) : Type := W -> outcome A * W.

#[global] Instance M_ret {W} : MRet (M W) := fun A a w => (Returned a, w).
#[global] Instance M_bind {W} : MBind (M W) := fun A B f m w =>
  match m w with
  | (Returned a, w') => f a w'
  | (Raised e, w') => (Raised e, w')
  end.

Definition raise {W A} (e : exn) : M W A := fun w => (Raised e, w).
Definition get_world {W} : M W W := fun w => (Returned w, w).
Definition modify_world {W} (f : W -> W) : M W unit := fun w => (Returned tt, f w).
Definition lift_outcome {W A} (r : outcome A) : M W A := fun w => (r, w).

(** [try: body except Exception: handler]. *)
Definition try_except {W A} (body handler : M W A) : M W A := fun w =>
  match body w with
  | (Returned a, w') => (Returned a, w')
  | (Raised _, w') => handler w'
  end.

(** ** Values read from JSON *)

(** A Python [str] holding arbitrary text: its code points. *)
Abbreviation text := (list Z).

(** A [str] literal with ASCII content. *)
Definition text_of (s : string) : text :=
  map (fun a => Z.of_N (N_of_ascii a)) (list_ascii_of_string s).

(** What [json.load] returns: [None], [bool], [int], [str], [list] and
    [dict] (as an association list in insertion order, keys distinct).
    JSON numbers with a fraction or an exponent ([float]) are left out. *)
Inductive pyval :=
| PyNone
| PyBool (b : bool)
| PyInt (z : Z)
| PyStr (s : text)
| PyList (l : list pyval)
| PyDict (l : list (text * pyval)).

(** What [open(os.environ[NAME])] followed by [json.load] yields.  The
    parser itself is outside the callbacks; its result is an input. *)
Inductive json_source :=
| EnvUnset                (* os.environ[NAME] raises KeyError *)
| Unreadable              (* open raises OSError *)
| Malformed               (* json.load raises JSONDecodeError *)
| Parsed (v : pyval).

Definition load_json (src : json_source) : outcome pyval :=
  match src with
  | EnvUnset => Raised KeyError
  | Unreadable => Raised OSError
  | Malformed => Raised JSONDecodeError
  | Parsed v => Returned v
  end.

(** [d[key]] and [d.get(key, default)] on the association list of a dict. *)
Fixpoint dict_lookup (key : text) (d : list (text * pyval)) : option pyval :=
  match d with
  | [] => None
  | (k, v) :: d' => if decide (k = key) then Some v else dict_lookup key d'
  end.

(** [v.get(key, default)]: only a [dict] has the method. *)
Definition py_get (v : pyval) (key : text) (dflt : pyval) : outcome pyval :=
  match v with
  | PyDict d => Returned (default dflt (dict_lookup key d))
  | _ => Raised AttributeError
  end.

(** The values that compare with an [int]: [int] itself and [bool]
    ([True] is 1, [False] is 0), with the value and its [str()].  Ordering
    any other value of [pyval] against an [int] raises [TypeError]. *)
Definition int_view (v : pyval) : option (Z * string) :=
  match v with
  | PyInt z => Some (z, pretty z)
  | PyBool true => Some (1, "True"%string)
  | PyBool false => Some (0, "False"%string)
  | _ => None
  end.

(** ** Text: UTF-8, lines *)

Definition byte_to_Z (x : byte) : Z := Z.of_N (Byte.to_N x).
Definition byte_of_Z (z : Z) : byte := default Byte.x00 (Byte.of_N (Z.to_N z)).

Definition in_range (lo hi z : Z) : bool := (lo <=? z) && (z <=? hi).

(** The values the second byte of a sequence led by [z0] may take: the
    narrowed ranges exclude overlong forms, surrogates and code points above
    [0x10FFFF]. *)
Definition second_byte_range (z0 : Z) : Z * Z :=
  if z0 =? 0xE0 then (0xA0, 0xBF)
  else if z0 =? 0xED then (0x80, 0x9F)
  else if z0 =? 0xF0 then (0x90, 0xBF)
  else if z0 =? 0xF4 then (0x80, 0x8F)
  else (0x80, 0xBF).

Definition continuation (z : Z) : bool := in_range 0x80 0xBF z.

(** The well-formed UTF-8 sequence at the head of [bs], if there is one: its
    code point and the number of bytes after the first. *)
Definition decode_first (bs : bytes) : option (Z * nat) :=
  match bs with
  | [] => None
  | b0 :: r =>
      let z0 := byte_to_Z b0 in
      let '(lo, hi) := second_byte_range z0 in
      if z0 <? 0x80 then Some (z0, 0%nat)
      else if in_range 0xC2 0xDF z0 then
        match r with
        | b1 :: _ =>
            let z1 := byte_to_Z b1 in
            if continuation z1 then Some ((z0 - 0xC0) * 64 + (z1 - 0x80), 1%nat) else None
        | _ => None
        end
      else if in_range 0xE0 0xEF z0 then
        match r with
        | b1 :: b2 :: _ =>
            let z1 := byte_to_Z b1 in
            let z2 := byte_to_Z b2 in
            if in_range lo hi z1 && continuation z2
            then Some (((z0 - 0xE0) * 64 + (z1 - 0x80)) * 64 + (z2 - 0x80), 2%nat)
            else None
        | _ => None
        end
      else if in_range 0xF0 0xF4 z0 then
        match r with
        | b1 :: b2 :: b3 :: _ =>
            let z1 := byte_to_Z b1 in
            let z2 := byte_to_Z b2 in
            let z3 := byte_to_Z b3 in
            if in_range lo hi z1 && continuation z2 && continuation z3
            then Some ((((z0 - 0xF0) * 64 + (z1 - 0x80)) * 64 + (z2 - 0x80)) * 64
                       + (z3 - 0x80), 3%nat)
            else None
        | _ => None
        end
      else None
  end.

(** [bs.decode("utf-8", errors="ignore")]: well-formed sequences are
    decoded, every byte that does not start one is dropped. *)
Equations? utf8_decode (bs : bytes) : text by wf (length bs) lt :=
  utf8_decode [] := [];
  utf8_decode (b0 :: r) with decode_first (b0 :: r) => {
    | Some (c, k) := c :: utf8_decode (drop k r);
    | None := utf8_decode r }.
Proof. all: rewrite ?length_drop; simpl; lia. Qed.

(** The UTF-8 form of one code point; none for a surrogate or a value that
    is not a code point. *)
Definition utf8_encode_char (c : Z) : option bytes :=
  if c <? 0 then None
  else if c <? 0x80 then Some [byte_of_Z c]
  else if c <? 0x800 then Some [byte_of_Z (0xC0 + c / 64); byte_of_Z (0x80 + c mod 64)]
  else if in_range 0xD800 0xDFFF c then None
  else if c <? 0x10000 then
    Some [byte_of_Z (0xE0 + c / 4096); byte_of_Z (0x80 + (c / 64) mod 64);
          byte_of_Z (0x80 + c mod 64)]
  else if c <? 0x110000 then
    Some [byte_of_Z (0xF0 + c / 262144); byte_of_Z (0x80 + (c / 4096) mod 64);
          byte_of_Z (0x80 + (c / 64) mod 64); byte_of_Z (0x80 + c mod 64)]
  else None.

(** [s.encode("utf-8")]: raises on a code point that has no UTF-8 form. *)
Fixpoint utf8_encode (s : text) : outcome bytes :=
  match s with
  | [] => Returned []
  | c :: t =>
      match utf8_encode_char c, utf8_encode t with
      | Some bs, Returned rest => Returned (bs ++ rest)
      | None, _ => Raised UnicodeEncodeError
      | _, Raised e => Raised e
      end
  end.

(** The line boundaries of [str.splitlines]: LF, VT, FF, CR, FS, GS, RS,
    NEL, LINE SEPARATOR and PARAGRAPH SEPARATOR. *)
Definition is_linebreak (c : Z) : bool :=
  bool_decide (c ∈ [0x0A; 0x0B; 0x0C; 0x0D; 0x1C; 0x1D; 0x1E; 0x85; 0x2028; 0x2029]).

(** [s.splitlines()]: the lines without their boundaries; CR LF is one
    boundary; no empty last line after a final boundary. *)
Fixpoint splitlines (s : text) : list text :=
  match s with
  | [] => []
  | c :: t =>
      if is_linebreak c then
        [] :: match t with
              | c' :: t' => if (c =? 0x0D) && (c' =? 0x0A) then splitlines t' else splitlines t
              | [] => splitlines t
              end
      else
        match splitlines t with
        | [] => [[c]]
        | l :: ls => (c :: l) :: ls
        end
  end.

(** ["\n".join(lines)]. *)
Fixpoint join_lines (lines : list text) : text :=
  match lines with
  | [] => []
  | [l] => l
  | l :: rest => l ++ 0x0A :: join_lines rest
  end.

(** ** commit.py *)

(** [bytes.hex()]: two lowercase hexadecimal digits per byte. *)
Definition hex_digit (n : N) : ascii :=
  if (n <? 10)%N then ascii_of_N (48 + n) else ascii_of_N (87 + n).

Fixpoint bytes_hex (bs : bytes) : string :=
  match bs with
  | [] => EmptyString
  | x :: bs' =>
      let n := Byte.to_N x in
      String (hex_digit (n / 16)) (String (hex_digit (n mod 16)) (bytes_hex bs'))
  end.

(** The line feed of a Python [\n]. *)
Definition LF : string := String "010"%char EmptyString.

Module Commit.

(** The names the callback keeps in [globals()] between its calls; [None]
    while a name is not there yet. *)
Record globals := Globals {
  total_commits : option pyval;
  seen_hashes : option (gset string);
  processed_count : option Z }.

(** The process environment, fixed during a run: what reading the file named
    by [STATS_FILE] yields, and whether opening the files named by
    [PROGRESS_FILE] and [CALLBACK_LOG] for appending succeeds. *)
Record environ := Environ {
  STATS_FILE : json_source;
  PROGRESS_FILE : bool;
  CALLBACK_LOG : bool }.

(** The world of the callback: environment, globals, and the lines appended
    so far to the progress file and to the callback log (oldest first; a log
    line is written as [[timestamp] COMMIT: message]). *)
Record world := World {
  env : environ;
  glob : globals;
  progress_file : list string;
  callback_log : list string }.

Definition set_glob (g : globals) (w : world) : world :=
  World (env w) g (progress_file w) (callback_log w).

Definition set_total_commits (v : pyval) : M world unit :=
  modify_world (fun w =>
    set_glob (Globals (Some v) (seen_hashes (glob w)) (processed_count (glob w))) w).
Definition set_seen_hashes (s : gset string) : M world unit :=
  modify_world (fun w =>
    set_glob (Globals (total_commits (glob w)) (Some s) (processed_count (glob w))) w).
Definition set_processed_count (c : Z) : M world unit :=
  modify_world (fun w =>
    set_glob (Globals (total_commits (glob w)) (seen_hashes (glob w)) (Some c)) w).

(** [globals()[name]]: [KeyError] when the name is missing. *)
Definition get_global {A} (field : globals -> option A) : M world A := fun w =>
  match field (glob w) with
  | Some a => (Returned a, w)
  | None => (Raised KeyError, w)
  end.

(** [log_callback]: appends to the log; any failure is swallowed. *)
Definition log_callback (message : string) : M world unit :=
  modify_world (fun w =>
    if CALLBACK_LOG (env w)
    then World (env w) (glob w) (progress_file w) (callback_log w ++ [message])
    else w).

(** [with open(os.environ["PROGRESS_FILE"], "a") as f: f.write(line)]: not
    guarded by a [try]. *)
Definition append_progress (line : string) : M world unit := fun w =>
  if PROGRESS_FILE (env w)
  then (Returned tt, World (env w) (glob w) (progress_file w ++ [line]) (callback_log w))
  else (Raised OSError, w).

Section Callback.
(** [format_percentage processed total] stands for
    [f"{(processed / total) * 100:.1f}"] with [total > 0]: a float division,
    product and rendering, which are not modelled. *)
Variable format_percentage : Z -> Z -> string.

(** Lines 6-11: memoize [total_commits]. *)
Definition init_total_commits : M world unit :=
  w ← get_world;
  match total_commits (glob w) with
  | Some _ => mret tt
  | None =>
      try_except
        (v ← lift_outcome (load_json (STATS_FILE (env w)));
         t ← lift_outcome (py_get v (text_of "total_commits") (PyInt 0));
         set_total_commits t)
        (set_total_commits (PyInt 0))
  end.

(** Lines 13-14. *)
Definition init_seen_hashes : M world unit :=
  w ← get_world;
  match seen_hashes (glob w) with
  | Some _ => mret tt
  | None => set_seen_hashes ∅
  end.

(** Lines 16-18. *)
Definition init_processed_count : M world unit :=
  w ← get_world;
  match processed_count (glob w) with
  | Some _ => mret tt
  | None => set_processed_count 0
  end.

(** Line 39 and the fields of line 42 that depend on [total_commits]: its
    [str()] and the percentage, rendered with [.1f].  When [total_commits > 0]
    is false the percentage is the [int] 0, rendered as [0.0]. *)
Definition percentage (processed : Z) (total : pyval) : outcome (string * string) :=
  match int_view total with
  | Some (t, total_str) =>
      Returned (total_str, if 0 <? t then format_percentage processed t else "0.0"%string)
  | None => Raised TypeError
  end.

Definition progress_line (commit_hash total_str : string) (processed : Z) (pct : string)
  : string :=
  commit_hash +:+ " " +:+ total_str +:+ " seen " +:+ pretty processed
    +:+ " processed " +:+ pct +:+ "%" +:+ LF.

(** Lines 20-46: the body of the callback for one commit, on the hexadecimal
    rendering of its id. *)
Definition record (commit_hash : string) : M world unit :=
  init_total_commits;;
  init_seen_hashes;;
  init_processed_count;;
  log_callback ("Processing commit " +:+ commit_hash);;
  seen ← get_global seen_hashes;
  if decide (commit_hash ∈ seen) then
    log_callback ("Commit " +:+ commit_hash +:+ " already processed, skipping")
  else
    set_seen_hashes (seen ∪ {[commit_hash]});;
    count ← get_global processed_count;
    set_processed_count (count + 1);;
    processed ← get_global processed_count;
    total ← get_global total_commits;
    '(total_str, pct) ← lift_outcome (percentage processed total);
    append_progress (progress_line commit_hash total_str processed pct);;
    log_callback ("Added commit " +:+ commit_hash +:+ " to progress file ("
                  +:+ pretty processed +:+ "/" +:+ total_str +:+ " = " +:+ pct +:+ "%)").

Definition callback (original_id : bytes) : M world unit :=
  record (bytes_hex original_id).

(** The driver visits commits one after the other; an exception that escapes
    a callback ends the run. *)
Fixpoint run (commit_hashes : list string) : M world unit :=
  match commit_hashes with
  | [] => mret tt
  | h :: rest => record h;; run rest
  end.

End Callback.

(** The value lines 6-11 leave in [total_commits] when they run: the
    [total_commits] entry of the stats object, 0 when the object has none,
    and 0 when anything in the [try] raised. *)
Definition stats_total (src : json_source) : pyval :=
  match load_json src with
  | Returned (PyDict d) => default (PyInt 0) (dict_lookup (text_of "total_commits") d)
  | _ => PyInt 0
  end.

(** The callback log after [log_callback] was called with each of [msgs]. *)
Definition logged (e : environ) (log msgs : list string) : list string :=
  if CALLBACK_LOG e then log ++ msgs else log.

(** A process starts with none of the names in [globals()]. *)
Definition fresh_globals : globals := Globals None None None.

Definition start (e : environ) (progress log : list string) : world :=
  World e fresh_globals progress log.

(** The distinct ids of a sequence of visits, in order of first visit,
    given the ids already seen. *)
Fixpoint first_visits (seen : gset string) (ids : list string) : list string :=
  match ids with
  | [] => []
  | i :: rest =>
      if decide (i ∈ seen) then first_visits seen rest
      else i :: first_visits (seen ∪ {[i]}) rest
  end.

(** Two worlds that agree on everything but the callback log and whether it
    can be written. *)
Definition same_ledger (w1 w2 : world) : Prop :=
  STATS_FILE (env w1) = STATS_FILE (env w2) /\
  PROGRESS_FILE (env w1) = PROGRESS_FILE (env w2) /\
  glob w1 = glob w2 /\
  progress_file w1 = progress_file w2.

End Commit.

(** ** file-info.py *)

(** [v == s] for a [str] [s]. *)
Definition py_eq_str (v : pyval) (s : text) : bool :=
  match v with
  | PyStr s' => bool_decide (s' = s)
  | _ => false
  end.

(** [hash(v)] raises [TypeError] on a [list] or a [dict]. *)
Definition hashable (v : pyval) : bool :=
  match v with
  | PyList _ | PyDict _ => false
  | _ => true
  end.

(** [v1 == v2] on hashable values: [bool] and [int] compare as numbers. *)
Definition py_eq (v1 v2 : pyval) : bool :=
  match v1, v2 with
  | PyNone, PyNone => true
  | PyStr s1, PyStr s2 => bool_decide (s1 = s2)
  | _, _ =>
      match int_view v1, int_view v2 with
      | Some (z1, _), Some (z2, _) => z1 =? z2
      | _, _ => false
      end
  end.

(** [iter(v)]: the elements of a [list], the keys of a [dict], the
    characters of a [str]. *)
Definition py_iter (v : pyval) : outcome (list pyval) :=
  match v with
  | PyList l => Returned l
  | PyDict d => Returned (map (fun kv => PyStr (fst kv)) d)
  | PyStr s => Returned (map (fun c => PyStr [c]) s)
  | _ => Raised TypeError
  end.

(** [v[key]] for a [str] key. *)
Definition py_getitem (v : pyval) (key : text) : outcome pyval :=
  match v with
  | PyDict d =>
      match dict_lookup key d with
      | Some x => Returned x
      | None => Raised KeyError
      end
  | _ => Raised TypeError
  end.

Module FileInfo.

(** A finding as the callback keeps it: the tuple [(e["File"], e["StartLine"])]. *)
Abbreviation key := (pyval * pyval)%type.

Definition key_eq (k1 k2 : key) : bool := py_eq k1.1 k2.1 && py_eq k1.2 k2.2.

(** [bad_lines.add(k)] on a set kept as the list of its elements. *)
Definition set_add (k : key) (s : list key) : list key :=
  if existsb (key_eq k) s then s else s ++ [k].

(** Lines 18-20, for the parsed entries in turn. *)
Fixpoint add_findings (entries : list pyval) (bad_lines : list key) : outcome (list key) :=
  match entries with
  | [] => Returned bad_lines
  | e :: rest =>
      match py_getitem e (text_of "File") with
      | Raised x => Raised x
      | Returned file =>
          match py_getitem e (text_of "StartLine") with
          | Raised x => Raised x
          | Returned start_line =>
              if hashable file && hashable start_line
              then add_findings rest (set_add (file, start_line) bad_lines)
              else Raised TypeError
          end
      end
  end.

(** Lines 16-20: the set of findings read from the file. *)
Definition load_bad_lines (src : json_source) : outcome (list key) :=
  match load_json src with
  | Raised x => Raised x
  | Returned v =>
      match py_iter v with
      | Raised x => Raised x
      | Returned entries => add_findings entries []
      end
  end.

(** An entry of the findings file from which lines 19-20 build a key: it has
    a [File] and a [StartLine], both hashable. *)
Definition entry_ok (e : pyval) : Prop :=
  exists file start_line,
    py_getitem e (text_of "File") = Returned file /\
    py_getitem e (text_of "StartLine") = Returned start_line /\
    hashable file && hashable start_line = true.

(** Line 28: some finding is for this file. *)
Definition has_secret (decoded_filename : text) (bad_lines : list key) : bool :=
  existsb (fun k : key => py_eq_str k.1 decoded_filename) bad_lines.

(** The collaborator handed to the callback as [value]: fetching a blob by
    its identifier and inserting a new blob, over the state of the
    repository being rewritten. *)
Class Driver := {
  blob_id : Type;
  repo : Type;
  get_contents_by_identifier : repo -> blob_id -> bytes;
  insert_file_with_contents : repo -> bytes -> blob_id * repo }.

(** The process environment: what reading the file named by
    [GITLEAKS_FILE] yields, and whether the file named by [CALLBACK_LOG] can
    be appended to. *)
Record environ := Environ {
  GITLEAKS_FILE : json_source;
  CALLBACK_LOG : bool }.

Section Callback.
Context `{Driver}.

(** The world of the callback: environment, repository, the identifiers
    fetched and the contents inserted so far, and the messages appended to
    the callback log (each written as [[timestamp] FILE_INFO: message]). *)
Record world := World {
  env : environ;
  repository : repo;
  fetched : list blob_id;
  inserted : list bytes;
  callback_log : list text }.

Definition log_callback (message : text) : M world unit :=
  modify_world (fun w =>
    if CALLBACK_LOG (env w)
    then World (env w) (repository w) (fetched w) (inserted w) (callback_log w ++ [message])
    else w).

(** The world after [log_callback] was called with each of [msgs]. *)
Definition logged (w : world) (msgs : list text) : world :=
  if CALLBACK_LOG (env w)
  then World (env w) (repository w) (fetched w) (inserted w) (callback_log w ++ msgs)
  else w.

Definition fetch (id : blob_id) : M world bytes := fun w =>
  (Returned (get_contents_by_identifier (repository w) id),
   World (env w) (repository w) (fetched w ++ [id]) (inserted w) (callback_log w)).

Definition insert (contents : bytes) : M world blob_id := fun w =>
  let '(id, r) := insert_file_with_contents (repository w) contents in
  (Returned id, World (env w) r (fetched w) (inserted w ++ [contents]) (callback_log w)).

(** The order in which [list(bad_lines)] lists a set: some order, which
    Python does not specify. *)
Variable set_order : list key -> list key.

Definition decimal (z : Z) : text := text_of (pretty z).

(** The messages of the callback, as the f-strings of the source build them. *)
Definition msg_loaded (n : nat) : text :=
  text_of "Loaded " ++ decimal (Z.of_nat n) ++ text_of " secret locations from gitleaks file".
Definition msg_processing (decoded_filename : text) : text :=
  text_of "Processing file: " ++ decoded_filename.
Definition msg_no_secrets (decoded_filename : text) : text :=
  text_of "No secrets found in " ++ decoded_filename ++ text_of ", returning unchanged".
Definition msg_found (decoded_filename : text) : text :=
  text_of "Found secrets in " ++ decoded_filename ++ text_of ", processing...".
Definition msg_removed (lnum_str : string) (decoded_filename : text) : text :=
  text_of "Removed secret from line " ++ text_of lnum_str ++ text_of " in "
    ++ decoded_filename.
Definition msg_modified (lines_modified : Z) (decoded_filename : text)
    (original_line_count : nat) : text :=
  text_of "Modified " ++ decimal lines_modified ++ text_of " lines in " ++ decoded_filename
    ++ text_of " (original: " ++ decimal (Z.of_nat original_line_count) ++ text_of " lines)".

(** Lines 44-48: the findings in turn, over the line buffer and the count
    of modified lines. *)
Fixpoint clean_lines (decoded_filename : text) (findings : list key)
    (lines : list text) (lines_modified : Z) : M world (list text * Z) :=
  match findings with
  | [] => mret (lines, lines_modified)
  | (f, lnum) :: rest =>
      if py_eq_str f decoded_filename then
        match int_view lnum with
        | None => raise TypeError
        | Some (n, lnum_str) =>
            if (0 <? n) && (n <=? Z.of_nat (length lines)) then
              log_callback (msg_removed lnum_str decoded_filename);;
              clean_lines decoded_filename rest
                (<[Z.to_nat (n - 1) := []]> lines) (lines_modified + 1)
            else clean_lines decoded_filename rest lines lines_modified
        end
      else clean_lines decoded_filename rest lines lines_modified
  end.

(** The body of the callback.  [bad_lines] is assigned in the body, so it is
    a local of the callback function: the name never enters [globals()],
    the test of line 15 holds at every call, and every call reads the file. *)
Definition callback (filename mode : bytes) (blob : blob_id)
  : M world (bytes * bytes * blob_id) :=
  w ← get_world;
  bad_lines ← lift_outcome (load_bad_lines (GITLEAKS_FILE (env w)));
  log_callback (msg_loaded (length bad_lines));;
  let decoded_filename := utf8_decode filename in
  log_callback (msg_processing decoded_filename);;
  if negb (has_secret decoded_filename bad_lines) then
    log_callback (msg_no_secrets decoded_filename);;
    mret (filename, mode, blob)
  else
    log_callback (msg_found decoded_filename);;
    contents ← fetch blob;
    let lines := splitlines (utf8_decode contents) in
    let original_line_count := length lines in
    '(lines, lines_modified) ← clean_lines decoded_filename (set_order bad_lines) lines 0;
    encoded ← lift_outcome (utf8_encode (join_lines lines));
    let new_contents := encoded ++ bytes_of LF in
    new_blob_id ← insert new_contents;
    log_callback (msg_modified lines_modified decoded_filename original_line_count);;
    mret (filename, mode, new_blob_id).

End Callback.

(** A code point that has a UTF-8 form: not a surrogate, at most [0x10FFFF]. *)
Definition scalar (c : Z) : Prop := 0 <= c < 0xD800 \/ 0xE000 <= c < 0x110000.

(** The index in the line buffer that a finding blanks, if it blanks one:
    the finding is for this file and its line number [n] has
    [0 < n <= len]. *)
Definition line_of (decoded_filename : text) (len : nat) (k : key) : option nat :=
  if py_eq_str k.1 decoded_filename then
    match int_view k.2 with
    | Some (n, _) =>
        if (0 <? n) && (n <=? Z.of_nat len) then Some (Z.to_nat (n - 1)) else None
    | None => None
    end
  else None.

(** The line buffer with the lines that some finding names made empty and
    every other line kept, at its index. *)
Definition blanked (decoded_filename : text) (bad_lines : list key) (lines : list text)
  : list text :=
  imap (fun i l =>
          if existsb (fun k => bool_decide (line_of decoded_filename (length lines) k = Some i))
               bad_lines
          then [] else l)
    lines.

(** Every finding for the file has a line number that orders against an
    [int] ([0 < lnum] does not raise). *)
Definition comparable (decoded_filename : text) (bad_lines : list key) : Prop :=
  Forall (fun k : key => py_eq_str k.1 decoded_filename = true -> is_Some (int_view k.2))
    bad_lines.

(** Every finding for the file has a line number outside [1 .. len]. *)
Definition out_of_range (decoded_filename : text) (len : nat) (bad_lines : list key) : Prop :=
  Forall (fun k : key =>
            py_eq_str k.1 decoded_filename = true ->
            exists n lnum_str,
              int_view k.2 = Some (n, lnum_str) /\ (n <= 0 \/ Z.of_nat len < n))
    bad_lines.

(** [bs] ends in exactly one line feed. *)
Definition ends_in_one_newline (bs : bytes) : Prop :=
  exists body, bs = body ++ bytes_of LF /\ last body <> Some Byte.x0a.

(** The messages that the loop of lines 44-48 logs over [findings]. *)
Definition removed_messages (decoded_filename : text) (len : nat) (findings : list key)
  : list text :=
  omap (fun k : key =>
          match line_of decoded_filename len k, int_view k.2 with
          | Some _, Some (_, lnum_str) => Some (msg_removed lnum_str decoded_filename)
          | _, _ => None
          end)
    findings.

(** Two worlds that agree on everything but the callback log and whether it
    can be written. *)
Definition same_files `{Driver} (w1 w2 : world) : Prop :=
  GITLEAKS_FILE (env w1) = GITLEAKS_FILE (env w2) /\
  repository w1 = repository w2 /\
  fetched w1 = fetched w2 /\
  inserted w1 = inserted w2.

(** The indices of the line buffer that some finding names. *)
Definition named_lines (decoded_filename : text) (bad_lines : list key) (len : nat)
  : list nat :=
  filter (fun i => existsb (fun k => bool_decide (line_of decoded_filename len k = Some i))
                     bad_lines = true)
    (seq 0 len).

(** No two elements of the list are equal as Python tuples. *)
Definition distinct_keys (s : list key) : Prop :=
  forall i j k1 k2, s !! i = Some k1 -> s !! j = Some k2 -> i <> j -> key_eq k1 k2 = false.

(** A finding for the file whose line number does not order against an
    [int]. *)
Definition unordered_line (decoded_filename : text) (k : key) : Prop :=
  py_eq_str k.1 decoded_filename = true /\ int_view k.2 = None.

(** A repository as the list of its blobs, a blob's identifier being its
    position; an identifier not in the list has no contents. *)
#[global] Instance list_driver : Driver := {|
  blob_id := nat;
  repo := list bytes;
  get_contents_by_identifier r id := default [] (r !! id);
  insert_file_with_contents r contents := (length r, r ++ [contents]) |}.

End FileInfo.

(** ** message.py *)

Module Message.

(** Lines of the callback log that this callback can append (the message
    after the [MESSAGE: ] tag; the timestamp is the wall clock's). *)
Definition log_processing : string := "Processing commit message".
Definition log_found : string := "Found 'SECRET' in commit message, redacting...".
Definition log_redacted : string := "Commit message redacted successfully".
Definition log_not_found : string := "No 'SECRET' found in commit message, returning unchanged".

Definition SECRET : bytes := bytes_of "SECRET".
Definition REDACTED : bytes := bytes_of "[REDACTED]".

(** The callback body: the value returned and the log messages passed to
    [log_callback], in order. *)
Definition callback (message : bytes) : bytes * list string :=
  if bytes_contains SECRET message then
    let redacted_message := bytes_replace SECRET REDACTED message in
    (redacted_message, [log_processing; log_found; log_redacted])
  else
    (message, [log_processing; log_not_found]).

(** [redact]: the message the callback returns. *)
Definition redact (message : bytes) : bytes := fst (callback message).

End Message.


(** ** Counting occurrences *)

(** The number of positions of [s] at which [p] occurs. *)
Fixpoint count_occurrences (p s : bytes) : nat :=
  match s with
  | [] => 0
  | _ :: t => (if starts_with p s then 1 else 0) + count_occurrences p t
  end.

(** ** Sample inputs *)

Module Sample.

(** A stats file [{"total_commits": 10}], writable progress file and log. *)
Definition commit_env : Commit.environ :=
  Commit.Environ (Parsed (PyDict [(text_of "total_commits", PyInt 10)])) true true.

(** No stats file. *)
Definition commit_env_no_stats : Commit.environ := Commit.Environ Unreadable true true.

(** A rendering of the percentage for the sample runs, exact on tenths. *)
Definition tenths (processed total : Z) : string :=
  pretty (processed * 100 / total) +:+ "." +:+ pretty (processed * 1000 / total mod 10).

(** A findings file [[{"File": file, "StartLine": line}]]. *)
Definition findings (file : string) (line : Z) : json_source :=
  Parsed (PyList [PyDict [(text_of "File", PyStr (text_of file));
                          (text_of "StartLine", PyInt line)]]).

(** A repository with one blob, a findings file with one finding. *)
Definition file_world (contents : bytes) (file : string) (line : Z) : FileInfo.world :=
  FileInfo.World (FileInfo.Environ (findings file line) true) [contents] [] [] [].

Definition in_order (bad_lines : list FileInfo.key) : list FileInfo.key := bad_lines.

Definition mode_644 : bytes := bytes_of "100644".

(** The sample of the specification: contents [x\nSECRETKEY\ny\n], to go
    with one finding at line 2 of [a.txt]. *)
Definition sample_contents : bytes :=
  bytes_of ("x" +:+ LF +:+ "SECRETKEY" +:+ LF +:+ "y" +:+ LF).

(** The carriage return of a Python [\r]. *)
Definition CR : string := String "013"%char EmptyString.

(** A findings file with one entry per pair of a file and a start line. *)
Definition findings_of (entries : list (string * pyval)) : json_source :=
  Parsed (PyList (map (fun fl : string * pyval =>
                         PyDict [(text_of "File", PyStr (text_of fl.1));
                                 (text_of "StartLine", fl.2)])
                    entries)).

(** A repository with one blob, and a findings file. *)
Definition world_of (src : json_source) (contents : bytes) (log_ok : bool)
    (log : list text) : FileInfo.world :=
  FileInfo.World (FileInfo.Environ src log_ok) [contents] [] [] log.

(** The reverse order of iteration. *)
Definition reversed (bad_lines : list FileInfo.key) : list FileInfo.key := rev bad_lines.

(** Contents that are no well-formed UTF-8. *)
Definition binary_contents : bytes := [Byte.xff; Byte.x61; Byte.x0a].

End Sample.

(** * Properties *)

(** ** Byte-string facts *)

Section BytesFacts.
Implicit Types p s t w : bytes.

Lemma byte_eqb_eq (x y : byte) : Byte.eqb x y = true <-> x = y.
Proof.
  split; [apply Byte.byte_dec_bl | intros ->; apply Byte.byte_dec_lb; reflexivity].
Qed.

Lemma starts_with_cons x p y s :
  starts_with (x :: p) (y :: s) = true <-> x = y /\ starts_with p s = true.
Proof. simpl. rewrite andb_true_iff, byte_eqb_eq. reflexivity. Qed.

Lemma starts_with_spec p s : starts_with p s = true <-> exists r, s = p ++ r.
Proof.
  revert s; induction p as [|x p IH]; intros s.
  - split; [intros _; exists s; reflexivity | reflexivity].
  - destruct s as [|y s].
    + split; [discriminate | intros [r Hr]; discriminate].
    + rewrite starts_with_cons, IH. split.
      * intros [-> [r ->]]. exists r. reflexivity.
      * intros [r Hr]. injection Hr as -> ->. split; [reflexivity | exists r; reflexivity].
Qed.

Lemma bytes_contains_spec p s : bytes_contains p s = true <-> occurs_in p s.
Proof.
  unfold occurs_in. induction s as [|c t IH].
  - simpl. rewrite starts_with_spec. split.
    + intros [r Hr]. exists [], r. exact Hr.
    + intros (a & r & H). destruct a; [|discriminate]. exists r. exact H.
  - change (bytes_contains p (c :: t)) with (starts_with p (c :: t) || bytes_contains p t).
    rewrite orb_true_iff, IH, starts_with_spec. split.
    + intros [[r Hr] | (a & r & ->)]; [exists [], r; exact Hr | exists (c :: a), r; reflexivity].
    + intros (a & r & H). destruct a as [|x a].
      * left. exists r. exact H.
      * right. injection H as -> ->. exists a, r. reflexivity.
Qed.

Lemma bytes_contains_false p s : bytes_contains p s = false <-> ~ occurs_in p s.
Proof. rewrite <- bytes_contains_spec. destruct (bytes_contains p s); split; congruence. Qed.

Lemma starts_with_app p s r : starts_with p s = true -> starts_with p (s ++ r) = true.
Proof.
  rewrite !starts_with_spec. intros [q ->]. exists (q ++ r). rewrite app_assoc. reflexivity.
Qed.

End BytesFacts.

(** ** [bytes.replace] with a pattern that cannot overlap itself or the
    replacement *)

Section ReplaceFacts.
Variables (o n : byte) (otl ntl : bytes).
Let old : bytes := o :: otl.
Let new : bytes := n :: ntl.

Lemma replace_scan_cons c t :
  replace_scan old new (c :: t) =
  if starts_with old (c :: t)
  then new ++ replace_scan old new (drop (length otl) t)
  else c :: replace_scan old new t.
Proof.
  simp replace_scan. destruct (starts_with old (c :: t)); simpl; [|reflexivity].
  replace (length otl - 0)%nat with (length otl) by lia. reflexivity.
Qed.

Lemma replace_scan_absent s :
  bytes_contains old s = false -> replace_scan old new s = s.
Proof.
  induction s as [|c t IH]; [reflexivity|].
  intros H. change (starts_with old (c :: t) || bytes_contains old t = false) in H.
  apply orb_false_iff in H as [H1 H2].
  rewrite replace_scan_cons, H1, IH by exact H2. reflexivity.
Qed.

(** The first byte of the replacement does not occur in the pattern. *)
Hypothesis new_head_fresh : n ∉ old.

Lemma starts_with_replace_scan w t :
  n ∉ w ->
  starts_with w (replace_scan old new t) = true -> starts_with w t = true.
Proof.
  revert t; induction w as [|a w IH]; intros t Hn; [reflexivity|].
  destruct t as [|c t]; [simp replace_scan; discriminate|].
  rewrite replace_scan_cons. destruct (starts_with old (c :: t)).
  - intros H. apply starts_with_cons in H as [-> _]. set_solver.
  - rewrite !starts_with_cons. intros [-> H]. split; [reflexivity|].
    apply IH; [set_solver | exact H].
Qed.

Lemma replace_scan_head s : starts_with old (replace_scan old new s) = false.
Proof.
  destruct (starts_with old (replace_scan old new s)) eqn:E; [|reflexivity].
  pose proof (starts_with_replace_scan _ _ new_head_fresh E) as Hs.
  destruct s as [|c t]; [discriminate|].
  rewrite replace_scan_cons, Hs in E.
  apply starts_with_cons in E as [-> _]. set_solver.
Qed.

Lemma bytes_contains_app_fresh u r :
  o ∉ u -> bytes_contains old r = false -> bytes_contains old (u ++ r) = false.
Proof.
  intros Hu Hr. induction u as [|x u IH]; [exact Hr|].
  change (starts_with old (x :: u ++ r) || bytes_contains old (u ++ r) = false).
  rewrite IH by set_solver. rewrite orb_false_r.
  destruct (starts_with old (x :: u ++ r)) eqn:E; [|reflexivity].
  apply starts_with_cons in E as [<- _]. set_solver.
Qed.

(** The first byte of the pattern does not occur in the replacement. *)
Hypothesis old_head_fresh : o ∉ new.

Lemma replace_scan_clean s : bytes_contains old (replace_scan old new s) = false.
Proof.
  remember (length s) as k eqn:Hk. revert s Hk.
  induction k as [k IH] using lt_wf_ind. intros [|c t] Hk; [reflexivity|].
  pose proof (replace_scan_head (c :: t)) as Hhead.
  rewrite replace_scan_cons in Hhead |- *.
  destruct (starts_with old (c :: t)).
  - apply bytes_contains_app_fresh; [exact old_head_fresh|].
    apply (IH (length (drop (length otl) t))); [|reflexivity].
    rewrite length_drop. simpl in Hk. lia.
  - change (starts_with old (c :: replace_scan old new t)
            || bytes_contains old (replace_scan old new t) = false).
    rewrite Hhead. simpl. apply (IH (length t)); [simpl in Hk; lia | reflexivity].
Qed.

(** The pattern has no proper border: its first byte occurs only first. *)
Hypothesis old_unbordered : o ∉ otl.

Lemma starts_with_app_fresh w a y :
  o ∉ w -> starts_with w (a ++ o :: y) = true -> starts_with w a = true.
Proof.
  revert a; induction w as [|x w IH]; intros a Hw; [reflexivity|].
  destruct a as [|c a].
  - intros H. apply starts_with_cons in H as [-> _]. set_solver.
  - rewrite <- app_comm_cons, !starts_with_cons. intros [-> H].
    split; [reflexivity|]. apply IH; [set_solver | exact H].
Qed.

Lemma replace_scan_app a r :
  replace_scan old new (a ++ old ++ r) =
  replace_scan old new a ++ new ++ replace_scan old new r.
Proof.
  remember (length a) as k eqn:Hk. revert a Hk.
  induction k as [k IH] using lt_wf_ind. intros [|c a] Hk.
  - simp replace_scan. change ([] ++ old ++ r) with (o :: otl ++ r).
    rewrite replace_scan_cons.
    assert (starts_with old (o :: otl ++ r) = true) as ->
      by (apply starts_with_spec; exists r; reflexivity).
    rewrite drop_app_length. reflexivity.
  - rewrite <- app_comm_cons, !replace_scan_cons.
    destruct (starts_with old (c :: a ++ old ++ r)) eqn:E.
    + apply starts_with_cons in E as [<- E].
      apply starts_with_app_fresh in E; [|exact old_unbordered].
      assert (starts_with old (o :: a) = true) as ->
        by (apply starts_with_cons; split; [reflexivity | exact E]).
      apply starts_with_spec in E as [a' ->].
      rewrite <- !app_assoc, !drop_app_length.
      rewrite (IH (length a')); [reflexivity | | reflexivity].
      simpl in Hk. rewrite length_app in Hk. lia.
    + destruct (starts_with old (c :: a)) eqn:E'.
      * apply (starts_with_app _ _ (old ++ r)) in E'.
        rewrite <- app_comm_cons in E'. congruence.
      * rewrite (IH (length a)); [reflexivity | simpl in Hk; lia | reflexivity].
Qed.

End ReplaceFacts.

(** ** message.py: the redactor *)

(** Closes [x ∉ l] for a byte and a literal byte string. *)
Ltac byte_notin :=
  cbv [Message.SECRET Message.REDACTED bytes_of list_byte_of_string
       map list_ascii_of_string byte_of_ascii Byte.of_bits];
  rewrite ?not_elem_of_cons; repeat split; try discriminate; apply not_elem_of_nil.

Lemma redacted_head_fresh : Byte.x5b ∉ Message.SECRET.
Proof. byte_notin. Qed.

Lemma secret_head_fresh : Byte.x53 ∉ Message.REDACTED.
Proof. byte_notin. Qed.

Lemma secret_unbordered : Byte.x53 ∉ bytes_of "ECRET".
Proof. byte_notin. Qed.

Lemma redact_replace m :
  Message.redact m = replace_scan Message.SECRET Message.REDACTED m.
Proof.
  unfold Message.redact, Message.callback.
  destruct (bytes_contains Message.SECRET m) eqn:E; simpl; [reflexivity|].
  symmetry. apply (replace_scan_absent Byte.x53 Byte.x5b (bytes_of "ECRET") (bytes_of "REDACTED]")).
  exact E.
Qed.

Lemma redact_clean m : ~ occurs_in Message.SECRET (Message.redact m).
Proof.
  rewrite redact_replace. apply bytes_contains_false.
  apply (replace_scan_clean Byte.x53 Byte.x5b (bytes_of "ECRET") (bytes_of "REDACTED]")).
  all: first [exact redacted_head_fresh | exact secret_head_fresh].
Qed.

Lemma redact_absent m : ~ occurs_in Message.SECRET m -> Message.redact m = m.
Proof.
  intros H. apply bytes_contains_false in H.
  unfold Message.redact, Message.callback. rewrite H. reflexivity.
Qed.

Lemma redact_app a r :
  Message.redact (a ++ Message.SECRET ++ r) =
  Message.redact a ++ Message.REDACTED ++ Message.redact r.
Proof.
  rewrite !redact_replace.
  apply (replace_scan_app Byte.x53 Byte.x5b (bytes_of "ECRET") (bytes_of "REDACTED]")).
  all: first [exact secret_unbordered | exact redacted_head_fresh | exact secret_head_fresh].
Qed.

(** C6. [redact] is case-sensitive literal substring replacement: around
    every occurrence of [SECRET] the message is rewritten piecewise with
    [[REDACTED]] in its place, so that no occurrence is left; a message
    without an occurrence is returned as it is; [b"secret"] is unchanged and
    [b"SECRET"] becomes [b"[REDACTED]"]. *)
Theorem redact_literal_replacement :
  (forall a r : bytes,
     Message.redact (a ++ bytes_of "SECRET" ++ r) =
     Message.redact a ++ bytes_of "[REDACTED]" ++ Message.redact r) /\
  (forall m : bytes, ~ occurs_in (bytes_of "SECRET") (Message.redact m)) /\
  (forall m : bytes, ~ occurs_in (bytes_of "SECRET") m -> Message.redact m = m) /\
  Message.redact (bytes_of "secret") = bytes_of "secret" /\
  Message.redact (bytes_of "SECRET") = bytes_of "[REDACTED]".
Proof.
  split; [exact redact_app|]. split; [exact redact_clean|].
  split; [exact redact_absent|]. split; reflexivity.
Qed.

(** C7. Redacting twice is the same as redacting once. *)
Theorem redact_idempotent (m : bytes) :
  Message.redact (Message.redact m) = Message.redact m.
Proof. apply redact_absent, redact_clean. Qed.

(** ** commit.py: the progress ledger *)

Section CommitFacts.
Import Commit.
Variable fmt : Z -> Z -> string.

(** Unfolds one call of the callback on a world given by its fields. *)
Ltac step_record :=
  cbv [record init_total_commits init_seen_hashes init_processed_count
       log_callback append_progress get_global set_seen_hashes set_total_commits
       set_processed_count set_glob modify_world get_world lift_outcome try_except
       mbind mret M_bind M_ret percentage];
  cbn [env glob progress_file callback_log total_commits seen_hashes processed_count
       CALLBACK_LOG PROGRESS_FILE STATS_FILE fst snd].

Lemma record_seen e t seen c progress log h :
  h ∈ seen ->
  record fmt h (World e (Globals (Some t) (Some seen) (Some c)) progress log) =
  (Returned tt,
   World e (Globals (Some t) (Some seen) (Some c)) progress
     (logged e log ["Processing commit " +:+ h;
                    "Commit " +:+ h +:+ " already processed, skipping"]%string)).
Proof.
  intros Hin. unfold logged. destruct (CALLBACK_LOG e) eqn:El.
  all: step_record; rewrite ?El; step_record.
  all: rewrite (decide_True _ _ Hin); step_record; rewrite ?El.
  - rewrite <- app_assoc. reflexivity.
  - reflexivity.
Qed.

Lemma record_new e t tz ts seen c progress log h :
  h ∉ seen -> int_view t = Some (tz, ts) -> PROGRESS_FILE e = true ->
  let pct := if 0 <? tz then fmt (c + 1) tz else "0.0"%string in
  record fmt h (World e (Globals (Some t) (Some seen) (Some c)) progress log) =
  (Returned tt,
   World e (Globals (Some t) (Some (seen ∪ {[h]})) (Some (c + 1)))
     (progress ++ [progress_line h ts (c + 1) pct])
     (logged e log ["Processing commit " +:+ h;
                    "Added commit " +:+ h +:+ " to progress file (" +:+ pretty (c + 1)
                      +:+ "/" +:+ ts +:+ " = " +:+ pct +:+ "%)"]%string)).
Proof.
  intros Hin Ht Hp pct. unfold logged. destruct (CALLBACK_LOG e) eqn:El.
  all: step_record; rewrite ?El; step_record.
  all: rewrite (decide_False _ _ Hin); step_record; rewrite ?El, Ht; step_record.
  all: rewrite Hp; step_record; rewrite ?El.
  - rewrite <- app_assoc. reflexivity.
  - reflexivity.
Qed.

Lemma record_fresh e progress log h :
  record fmt h (World e fresh_globals progress log) =
  record fmt h (World e (Globals (Some (stats_total (STATS_FILE e))) (Some ∅) (Some 0))
                  progress log).
Proof.
  unfold stats_total. step_record.
  destruct (STATS_FILE e) as [| | |[]]; reflexivity.
Qed.

Lemma stats_total_failure src x : load_json src = Raised x -> stats_total src = PyInt 0.
Proof. unfold stats_total. intros ->. reflexivity. Qed.

Lemma first_visits_elem seen ids x :
  x ∈ first_visits seen ids <-> x ∈ ids /\ x ∉ seen.
Proof.
  revert seen; induction ids as [|i rest IH]; intros seen; simpl.
  - set_solver.
  - destruct (decide (i ∈ seen)).
    + rewrite IH. set_solver.
    + rewrite elem_of_cons, IH. destruct (decide (x = i)); set_solver.
Qed.

Lemma first_visits_NoDup seen ids : NoDup (first_visits seen ids).
Proof.
  revert seen; induction ids as [|i rest IH]; intros seen; simpl.
  - constructor.
  - destruct (decide (i ∈ seen)); [apply IH|].
    constructor; [|apply IH]. rewrite first_visits_elem. set_solver.
Qed.

(** The ledger invariant along a run: from globals that are set, with a
    writable progress file and a total that compares with an [int], the run
    returns and appends one line per first visit, counting on from [c]. *)
Lemma run_initialised e t tz ts ids : forall seen c progress log,
  int_view t = Some (tz, ts) -> PROGRESS_FILE e = true ->
  exists log',
    run fmt ids (World e (Globals (Some t) (Some seen) (Some c)) progress log) =
    (Returned tt,
     World e (Globals (Some t) (Some (seen ∪ list_to_set ids))
                (Some (c + Z.of_nat (length (first_visits seen ids)))))
       (progress ++
        imap (fun k h =>
                progress_line h ts (c + Z.of_nat (S k))
                  (if 0 <? tz then fmt (c + Z.of_nat (S k)) tz else "0.0"%string))
          (first_visits seen ids))
       log').
Proof.
  induction ids as [|h rest IH]; intros seen c progress log Ht Hp.
  - exists log. cbn. rewrite app_nil_r, Z.add_0_r.
    replace (seen ∪ ∅) with seen by set_solver. reflexivity.
  - cbn [run first_visits]. unfold mbind at 1, M_bind at 1.
    destruct (decide (h ∈ seen)) as [Hin|Hin].
    + rewrite record_seen by exact Hin.
      destruct (IH seen c progress
                  (logged e log ["Processing commit " +:+ h;
                     "Commit " +:+ h +:+ " already processed, skipping"]%string) Ht Hp)
        as [log' ->].
      exists log'. replace (seen ∪ list_to_set (h :: rest)) with (seen ∪ list_to_set rest)
        by set_solver. reflexivity.
    + rewrite (record_new e t tz ts) by assumption.
      match goal with |- context [World _ _ _ ?l] => destruct (IH (seen ∪ {[h]}) (c + 1) 
         (progress ++ [progress_line h ts (c + 1)
                         (if 0 <? tz then fmt (c + 1) tz else "0.0"%string)]) l Ht Hp)
        as [log' ->] end.
      exists log'. f_equal. f_equal.
      * f_equal; [f_equal; set_solver | f_equal; cbn [length]; lia].
      * rewrite <- app_assoc. f_equal. cbn [app imap].
        replace (c + Z.of_nat 1) with (c + 1) by lia. f_equal.
        apply imap_ext. intros k x _. cbn [compose].
        replace (c + 1 + Z.of_nat (S k)) with (c + Z.of_nat (S (S k))) by lia.
        reflexivity.
Qed.

Lemma run_fresh e progress log h rest :
  run fmt (h :: rest) (start e progress log) =
  run fmt (h :: rest)
    (World e (Globals (Some (stats_total (STATS_FILE e))) (Some ∅) (Some 0)) progress log).
Proof.
  cbn [run]. unfold mbind, M_bind, start. rewrite record_fresh. reflexivity.
Qed.

(** C1. In one process run, with a writable progress file and a total that
    is a number, any sequence of [record] calls returns and appends to the
    progress file exactly one line per distinct commit id, in order of first
    visit; the line of the k-th distinct id carries the processed count k;
    a call with an id already seen leaves the progress file and the globals
    (the counter among them) as they were. *)
Theorem ledger_one_line_per_distinct_id
    (e : environ) (progress log : list string) (ids : list string) (tz : Z) (ts : string) :
  PROGRESS_FILE e = true ->
  int_view (stats_total (STATS_FILE e)) = Some (tz, ts) ->
  let visited := first_visits ∅ ids in
  (NoDup visited /\ forall h, h ∈ visited <-> h ∈ ids) /\
  (exists w',
     run fmt ids (start e progress log) = (Returned tt, w') /\
     progress_file w' =
       progress ++
       imap (fun k h =>
               progress_line h ts (Z.of_nat (S k))
                 (if 0 <? tz then fmt (Z.of_nat (S k)) tz else "0.0"%string))
         visited /\
     (ids <> [] ->
      processed_count (glob w') = Some (Z.of_nat (length visited)) /\
      seen_hashes (glob w') = Some (list_to_set ids))) /\
  (forall t seen c p l h,
     h ∈ seen ->
     exists l',
       record fmt h (World e (Globals (Some t) (Some seen) (Some c)) p l) =
       (Returned tt, World e (Globals (Some t) (Some seen) (Some c)) p l')).
Proof.
  intros Hp Ht visited. split; [|split].
  - split; [apply first_visits_NoDup|].
    intros h. unfold visited. rewrite first_visits_elem. set_solver.
  - destruct ids as [|h rest].
    + eexists. split; [reflexivity|]. cbn. rewrite app_nil_r. split; [reflexivity|].
      intros H. contradiction.
    + rewrite run_fresh.
      destruct (run_initialised e _ tz ts (h :: rest) ∅ 0 progress log Ht Hp) as [log' ->].
      eexists. split; [reflexivity|]. cbn [progress_file glob processed_count seen_hashes].
      split; [reflexivity|]. intros _. split; [reflexivity|].
      f_equal. set_solver.
  - intros t seen c p l h Hin. eexists. apply record_seen. exact Hin.
Qed.

(** C9. On the first call of a process the total is read from the stats
    source.  When reading or parsing it fails the total is 0, the failure
    does not escape, and the call goes on to write its progress line, with
    [0.0%]; so does every call that finds the total 0. *)
Theorem stats_failure_defaults_to_zero :
  (forall e progress log h x,
     load_json (STATS_FILE e) = Raised x -> PROGRESS_FILE e = true ->
     exists log',
       record fmt h (start e progress log) =
       (Returned tt,
        World e (Globals (Some (PyInt 0)) (Some {[h]}) (Some 1))
          (progress ++ [h +:+ " 0 seen 1 processed 0.0%" +:+ LF]) log')) /\
  (forall e seen c progress log h,
     h ∉ seen -> PROGRESS_FILE e = true ->
     exists log',
       record fmt h (World e (Globals (Some (PyInt 0)) (Some seen) (Some c)) progress log) =
       (Returned tt,
        World e (Globals (Some (PyInt 0)) (Some (seen ∪ {[h]})) (Some (c + 1)))
          (progress ++ [progress_line h "0" (c + 1) "0.0"]) log')) /\
  (forall e progress log h d v,
     STATS_FILE e = Parsed (PyDict d) ->
     dict_lookup (text_of "total_commits") d = Some v ->
     total_commits (glob (snd (record fmt h (start e progress log)))) = Some v).
Proof.
  split; [|split].
  - intros e progress log h x Hx Hp. unfold start. rewrite record_fresh.
    rewrite (stats_total_failure _ _ Hx).
    eexists. rewrite (record_new e (PyInt 0) 0 "0") by (set_solver || reflexivity || exact Hp).
    replace (∅ ∪ {[h]} : gset string) with ({[h]} : gset string) by set_solver.
    reflexivity.
  - intros e seen c progress log h Hin Hp.
    eexists. rewrite (record_new e (PyInt 0) 0 "0") by (exact Hin || reflexivity || exact Hp).
    reflexivity.
  - intros e progress log h d v He Hv. unfold start. rewrite record_fresh.
    unfold stats_total. rewrite He. cbn [load_json]. rewrite Hv. cbn [default].
    step_record.
    repeat match goal with
    | |- context [if ?b then _ else _] => destruct b; cbn
    | |- context [match int_view ?x with _ => _ end] => destruct (int_view x) as [[? ?]|]; cbn
    | |- context [decide ?P] => destruct (decide P); cbn
    end; reflexivity.
Qed.

End CommitFacts.

(** ** UTF-8 facts *)

(** Turns the boolean tests of the goal and hypotheses into (in)equalities
    on [Z]. *)
Ltac zbool :=
  unfold continuation, in_range in *;
  repeat match goal with
  | H : context [?a <? ?b] |- _ =>
      destruct (Z.ltb_spec a b); cbn [andb orb negb] in H; cbv beta iota zeta in H
  | H : context [?a <=? ?b] |- _ =>
      destruct (Z.leb_spec a b); cbn [andb orb negb] in H; cbv beta iota zeta in H
  | H : context [?a =? ?b] |- _ =>
      destruct (Z.eqb_spec a b); cbn [andb orb negb] in H; cbv beta iota zeta in H
  | |- context [?a <? ?b] =>
      destruct (Z.ltb_spec a b); cbn [andb orb negb]; cbv beta iota zeta
  | |- context [?a <=? ?b] =>
      destruct (Z.leb_spec a b); cbn [andb orb negb]; cbv beta iota zeta
  | |- context [?a =? ?b] =>
      destruct (Z.eqb_spec a b); cbn [andb orb negb]; cbv beta iota zeta
  end.

Lemma byte_to_Z_range (x : byte) : 0 <= byte_to_Z x < 256.
Proof.
  unfold byte_to_Z. pose proof (Byte.to_N_bounded x) as Hb.
  lia.
Qed.

Lemma byte_to_of_Z (z : Z) : 0 <= z < 256 -> byte_to_Z (byte_of_Z z) = z.
Proof.
  intros Hz. unfold byte_to_Z, byte_of_Z.
  destruct (Byte.of_N (Z.to_N z)) as [y|] eqn:E.
  - apply Byte.to_of_N in E. cbn. rewrite E. lia.
  - apply Byte.of_N_None_iff in E. lia.
Qed.

Lemma decode_first_scalar bs c k : decode_first bs = Some (c, k) -> FileInfo.scalar c.
Proof.
  unfold decode_first, FileInfo.scalar. destruct bs as [|b0 r]; [discriminate|].
  pose proof (byte_to_Z_range b0).
  destruct r as [|b1 [|b2 [|b3 r]]];
    try pose proof (byte_to_Z_range b1); try pose proof (byte_to_Z_range b2);
    try pose proof (byte_to_Z_range b3);
    unfold second_byte_range; cbv zeta; intros Hd; zbool;
    try lia; try discriminate; injection Hd as <- <-; lia.
Qed.

Lemma utf8_decode_cons b0 r :
  utf8_decode (b0 :: r) =
  match decode_first (b0 :: r) with
  | Some (c, k) => c :: utf8_decode (drop k r)
  | None => utf8_decode r
  end.
Proof.
  simp utf8_decode. destruct (decode_first (b0 :: r)) as [[c k]|]; reflexivity.
Qed.

Lemma utf8_decode_scalar bs : Forall FileInfo.scalar (utf8_decode bs).
Proof.
  remember (length bs) as n eqn:Hn. revert bs Hn.
  induction n as [n IH] using lt_wf_ind. intros [|b0 r] Hn.
  - simp utf8_decode. constructor.
  - rewrite utf8_decode_cons. destruct (decode_first (b0 :: r)) as [[c k]|] eqn:E.
    + constructor; [exact (decode_first_scalar _ _ _ E)|].
      apply (IH (length (drop k r))); [|reflexivity].
      rewrite length_drop. simpl in Hn. lia.
    + apply (IH (length r)); [simpl in Hn; lia | reflexivity].
Qed.

Lemma utf8_encode_char_scalar c : FileInfo.scalar c -> is_Some (utf8_encode_char c).
Proof.
  unfold FileInfo.scalar, utf8_encode_char. intros Hc. zbool; try lia; eexists; reflexivity.
Qed.

Lemma utf8_encode_scalar s : Forall FileInfo.scalar s -> exists bs, utf8_encode s = Returned bs.
Proof.
  induction 1 as [|c t Hc _ [rest IH]]; [exists []; reflexivity|].
  destruct (utf8_encode_char_scalar c Hc) as [bs Hbs].
  exists (bs ++ rest). cbn. rewrite Hbs, IH. reflexivity.
Qed.

(** A byte below [0x80] in the UTF-8 form of a code point is that code
    point. *)
Lemma utf8_encode_char_ascii c bs x :
  utf8_encode_char c = Some bs -> x ∈ bs -> byte_to_Z x < 0x80 -> c = byte_to_Z x.
Proof.
  unfold utf8_encode_char. intros Hbs Hx Hlt. zbool; try discriminate;
    injection Hbs as <-;
    repeat (apply elem_of_cons in Hx as [-> | Hx]);
    try (apply elem_of_nil in Hx; contradiction);
    rewrite byte_to_of_Z in * by (Z.div_mod_to_equations; lia);
    first [reflexivity | Z.div_mod_to_equations; lia].
Qed.

Lemma utf8_encode_char_nonempty c bs : utf8_encode_char c = Some bs -> bs <> [].
Proof. unfold utf8_encode_char. intros Hbs. zbool; try discriminate; injection Hbs as <-; discriminate. Qed.

Lemma utf8_encode_cons c t bs :
  utf8_encode (c :: t) = Returned bs <->
  exists b1 b2, utf8_encode_char c = Some b1 /\ utf8_encode t = Returned b2 /\ bs = b1 ++ b2.
Proof.
  cbn. destruct (utf8_encode_char c) as [b1|], (utf8_encode t) as [b2|e]; split.
  all: try (intros [= <-]; eauto; fail).
  all: try discriminate.
  all: intros (? & ? & H1 & H2 & ->); congruence.
Qed.

Lemma utf8_encode_elem s bs x :
  utf8_encode s = Returned bs -> x ∈ bs -> byte_to_Z x < 0x80 -> byte_to_Z x ∈ s.
Proof.
  revert bs; induction s as [|c t IH]; intros bs.
  - intros [= <-] Hx. apply elem_of_nil in Hx. contradiction.
  - rewrite utf8_encode_cons. intros (b1 & b2 & H1 & H2 & ->) Hx Hlt.
    apply elem_of_app in Hx as [Hx|Hx].
    + rewrite <- (utf8_encode_char_ascii _ _ _ H1 Hx Hlt). left.
    + right. exact (IH _ H2 Hx Hlt).
Qed.

Lemma utf8_encode_last s bs x :
  utf8_encode s = Returned bs -> last bs = Some x -> byte_to_Z x < 0x80 ->
  last s = Some (byte_to_Z x).
Proof.
  revert bs; induction s as [|c t IH]; intros bs.
  - intros [= <-]. discriminate.
  - rewrite utf8_encode_cons. intros (b1 & b2 & H1 & H2 & ->) Hl Hlt.
    destruct t as [|c' t'].
    + injection H2 as <-. rewrite app_nil_r in Hl.
      assert (x ∈ b1) as Hx.
      { destruct b1 as [|y b1] using rev_ind; [discriminate|].
        rewrite last_snoc in Hl. injection Hl as ->. set_solver. }
      rewrite <- (utf8_encode_char_ascii _ _ _ H1 Hx Hlt). reflexivity.
    + assert (b2 <> []) as Hne.
      { apply utf8_encode_cons in H2 as (b1' & b2' & H1' & _ & ->).
        apply utf8_encode_char_nonempty in H1'. destruct b1'; [contradiction|discriminate]. }
      rewrite last_app in Hl. destruct (last b2) as [y|] eqn:Ey.
      * rewrite last_cons. erewrite IH; [reflexivity | exact H2 | congruence | exact Hlt].
      * apply last_None in Ey. contradiction.
Qed.

Lemma utf8_encode_app s t bs :
  utf8_encode (s ++ t) = Returned bs <->
  exists b1 b2, utf8_encode s = Returned b1 /\ utf8_encode t = Returned b2 /\ bs = b1 ++ b2.
Proof.
  revert bs; induction s as [|c s IH]; intros bs.
  - cbn [app]. split.
    + intros Hbs. exists [], bs. split; [reflexivity | split; [exact Hbs | reflexivity]].
    + intros (b1 & b2 & [= <-] & Hb2 & ->). exact Hb2.
  - rewrite <- app_comm_cons, utf8_encode_cons. split.
    + intros (c1 & rest & Hc & Hrest & ->). apply IH in Hrest as (b1 & b2 & H1 & H2 & ->).
      exists (c1 ++ b1), b2. split; [|split; [exact H2 | apply app_assoc]].
      apply utf8_encode_cons. exists c1, b1. split; [exact Hc | split; [exact H1 | reflexivity]].
    + intros (b1 & b2 & H1 & H2 & ->).
      apply utf8_encode_cons in H1 as (c1 & b1' & Hc & H1' & ->).
      exists c1, (b1' ++ b2). split; [exact Hc | split; [|symmetry; apply app_assoc]].
      apply IH. exists b1', b2. split; [exact H1' | split; [exact H2 | reflexivity]].
Qed.

(** The encoded text ends with the byte of a line feed exactly when the text
    ends with a line feed. *)
Lemma utf8_encode_last_newline s bs :
  utf8_encode s = Returned bs -> last bs = Some Byte.x0a <-> last s = Some 0x0A.
Proof.
  intros Hbs. split.
  - intros Hl. apply (utf8_encode_last s bs Byte.x0a Hbs Hl). reflexivity.
  - intros Hl. apply last_Some in Hl as [s' ->].
    apply utf8_encode_app in Hbs as (b1 & b2 & _ & [= <-] & ->).
    apply last_snoc.
Qed.

(** [decode_first] on sequences given by the values of their bytes. *)
Lemma decode_first_1 z0 rest :
  0 <= z0 < 0x80 -> decode_first (byte_of_Z z0 :: rest) = Some (z0, 0%nat).
Proof.
  intros H0. unfold decode_first. rewrite byte_to_of_Z by lia.
  destruct (second_byte_range z0). destruct (Z.ltb_spec z0 0x80); [reflexivity | lia].
Qed.

Lemma decode_first_2 z0 z1 rest :
  0xC2 <= z0 <= 0xDF -> 0x80 <= z1 <= 0xBF ->
  decode_first (byte_of_Z z0 :: byte_of_Z z1 :: rest)
  = Some ((z0 - 0xC0) * 64 + (z1 - 0x80), 1%nat).
Proof.
  intros H0 H1. unfold decode_first. rewrite !byte_to_of_Z by lia.
  destruct (second_byte_range z0). zbool; first [reflexivity | lia].
Qed.

Lemma decode_first_3 z0 z1 z2 rest :
  0xE0 <= z0 <= 0xEF -> 0x80 <= z1 <= 0xBF -> 0x80 <= z2 <= 0xBF ->
  (z0 = 0xE0 -> 0xA0 <= z1) -> (z0 = 0xED -> z1 <= 0x9F) ->
  decode_first (byte_of_Z z0 :: byte_of_Z z1 :: byte_of_Z z2 :: rest)
  = Some (((z0 - 0xE0) * 64 + (z1 - 0x80)) * 64 + (z2 - 0x80), 2%nat).
Proof.
  intros H0 H1 H2 Hlo Hhi. unfold decode_first. rewrite !byte_to_of_Z by lia.
  unfold second_byte_range. zbool; first [reflexivity | lia].
Qed.

Lemma decode_first_4 z0 z1 z2 z3 rest :
  0xF0 <= z0 <= 0xF4 -> 0x80 <= z1 <= 0xBF -> 0x80 <= z2 <= 0xBF -> 0x80 <= z3 <= 0xBF ->
  (z0 = 0xF0 -> 0x90 <= z1) -> (z0 = 0xF4 -> z1 <= 0x8F) ->
  decode_first (byte_of_Z z0 :: byte_of_Z z1 :: byte_of_Z z2 :: byte_of_Z z3 :: rest)
  = Some ((((z0 - 0xF0) * 64 + (z1 - 0x80)) * 64 + (z2 - 0x80)) * 64 + (z3 - 0x80), 3%nat).
Proof.
  intros H0 H1 H2 H3 Hlo Hhi. unfold decode_first. rewrite !byte_to_of_Z by lia.
  unfold second_byte_range. zbool; first [reflexivity | lia].
Qed.

(** The decoder reads back the UTF-8 form of a code point. *)
Lemma decode_first_encode c bs rest :
  utf8_encode_char c = Some bs ->
  decode_first (bs ++ rest) = Some (c, pred (length bs)) /\ bs <> [].
Proof.
  unfold utf8_encode_char, in_range.
  destruct (Z.ltb_spec c 0); [discriminate|].
  destruct (Z.ltb_spec c 0x80).
  { intros [= <-]. split; [|discriminate]. apply decode_first_1. lia. }
  destruct (Z.ltb_spec c 0x800).
  { intros [= <-]. split; [|discriminate]. cbn [app length pred].
    rewrite decode_first_2 by (Z.div_mod_to_equations; lia).
    do 2 f_equal. Z.div_mod_to_equations; lia. }
  destruct (Z.leb_spec 0xD800 c), (Z.leb_spec c 0xDFFF); cbn [andb]; try discriminate.
  all: destruct (Z.ltb_spec c 0x10000).
  all: try (intros [= <-]; split; [|discriminate]; cbn [app length pred];
            rewrite decode_first_3 by (Z.div_mod_to_equations; lia);
            do 2 f_equal; Z.div_mod_to_equations; lia).
  all: destruct (Z.ltb_spec c 0x110000); [|discriminate].
  all: intros [= <-]; split; [|discriminate]; cbn [app length pred];
       rewrite decode_first_4 by (Z.div_mod_to_equations; lia);
       do 2 f_equal; Z.div_mod_to_equations; lia.
Qed.

Lemma utf8_decode_encode s bs : utf8_encode s = Returned bs -> utf8_decode bs = s.
Proof.
  revert bs; induction s as [|c t IH]; intros bs.
  - intros [= <-]. reflexivity.
  - rewrite utf8_encode_cons. intros (b1 & b2 & H1 & H2 & ->).
    destruct (decode_first_encode c b1 b2 H1) as [Hd Hne].
    destruct b1 as [|b0 r]; [contradiction|].
    rewrite <- app_comm_cons, utf8_decode_cons. rewrite <- app_comm_cons in Hd.
    rewrite Hd. cbn [length pred]. rewrite drop_app_length, (IH _ H2). reflexivity.
Qed.

(** ** Lines *)

Lemma splitlines_cons c t :
  splitlines (c :: t) =
  if is_linebreak c then
    [] :: match t with
          | c' :: t' => if (c =? 0x0D) && (c' =? 0x0A) then splitlines t' else splitlines t
          | [] => []
          end
  else match splitlines t with
       | [] => [[c]]
       | l :: ls => (c :: l) :: ls
       end.
Proof. destruct t; reflexivity. Qed.

(** Every character of a line comes from the text and is no line boundary. *)
Lemma splitlines_elem s l c :
  l ∈ splitlines s -> c ∈ l -> c ∈ s /\ is_linebreak c = false.
Proof.
  remember (length s) as n eqn:Hn. revert s l Hn.
  induction n as [n IH] using lt_wf_ind. intros [|x t] l Hn.
  - intros Hl. apply elem_of_nil in Hl. contradiction.
  - rewrite splitlines_cons. simpl in Hn. destruct (is_linebreak x) eqn:Ex.
    + intros Hl Hc. apply elem_of_cons in Hl as [-> | Hl].
      { apply elem_of_nil in Hc. contradiction. }
      destruct t as [|x' t']; [apply elem_of_nil in Hl; contradiction|].
      destruct ((x =? 13) && (x' =? 10)).
      * destruct (IH (length t') ltac:(simpl in Hn; lia) t' l eq_refl Hl Hc). set_solver.
      * destruct (IH (length (x' :: t')) ltac:(lia) (x' :: t') l eq_refl Hl Hc). set_solver.
    + pose proof (IH (length t) ltac:(lia) t) as IHt.
      destruct (splitlines t) as [|l0 ls].
      * intros Hl Hc. apply list_elem_of_singleton in Hl as ->.
        apply list_elem_of_singleton in Hc as ->. split; [left | exact Ex].
      * intros Hl Hc. apply elem_of_cons in Hl as [-> | Hl].
        -- apply elem_of_cons in Hc as [-> | Hc]; [split; [left | exact Ex]|].
           destruct (IHt l0 eq_refl ltac:(left) Hc). set_solver.
        -- destruct (IHt l eq_refl ltac:(right; exact Hl) Hc). set_solver.
Qed.

Lemma join_lines_cons l l' rest :
  join_lines (l :: l' :: rest) = l ++ 0x0A :: join_lines (l' :: rest).
Proof. reflexivity. Qed.

Lemma join_lines_elem lines c :
  c ∈ join_lines lines -> c = 0x0A \/ exists l, l ∈ lines /\ c ∈ l.
Proof.
  induction lines as [|l [|l' rest] IH].
  - intros Hc. apply elem_of_nil in Hc. contradiction.
  - intros Hc. right. exists l. split; [left | exact Hc].
  - rewrite join_lines_cons, elem_of_app, elem_of_cons.
    intros [Hc | [-> | Hc]]; [right | left; reflexivity |].
    + exists l. split; [left | exact Hc].
    + destruct (IH Hc) as [-> | (l0 & Hl0 & Hc0)]; [left; reflexivity | right].
      exists l0. split; [right; exact Hl0 | exact Hc0].
Qed.

(** The joined text ends with a line feed exactly when there are at least
    two lines and the last one is empty, no line holding a line feed. *)
Lemma join_lines_last lines :
  (forall l, l ∈ lines -> 0x0A ∉ l) ->
  last (join_lines lines) = Some 0x0A <-> (2 <= length lines)%nat /\ last lines = Some [].
Proof.
  induction lines as [|l [|l' rest] IH]; intros Hno.
  - cbn. split; [discriminate | intros [? _]; lia].
  - cbn [join_lines length]. split; [|intros [? _]; lia].
    intros Hl. exfalso. apply (Hno l); [left|].
    destruct l as [|y l] using rev_ind; [discriminate|].
    rewrite last_snoc in Hl. injection Hl as ->. set_solver.
  - assert (forall l0, l0 ∈ l' :: rest -> 10 ∉ l0) as Hno'
      by (intros; apply Hno; right; assumption).
    specialize (IH Hno').
    rewrite join_lines_cons, last_app, (last_cons 10), (last_cons l).
    destruct rest as [|l'' rest].
    + cbn [join_lines length last]. destruct l' as [|y l' _] using rev_ind.
      * cbn. split; [intros _; split; [lia | reflexivity] | reflexivity].
      * rewrite last_snoc. split.
        -- intros [= ->]. exfalso. apply (Hno' (l' ++ [10])); [left | set_solver].
        -- intros [_ [= H]]. destruct l'; discriminate.
    + destruct (last (l' :: l'' :: rest)) as [l0|] eqn:El;
        [|apply last_None in El; discriminate].
      destruct (last (join_lines (l' :: l'' :: rest))) as [z|] eqn:Ez.
      * rewrite IH. cbn [length]. split; intros [? ?]; (split; [lia | assumption]).
      * exfalso. rewrite join_lines_cons in Ez. apply last_None in Ez.
        destruct l'; discriminate.
Qed.

Lemma splitlines_line l rest :
  (forall c, c ∈ l -> is_linebreak c = false) ->
  splitlines (l ++ 0x0A :: rest) = l :: splitlines rest.
Proof.
  induction l as [|c l IH]; intros Hl.
  - cbn [app]. rewrite splitlines_cons. cbn. destruct rest; reflexivity.
  - rewrite <- app_comm_cons, splitlines_cons, (Hl c) by left.
    rewrite IH by (intros; apply Hl; right; assumption). reflexivity.
Qed.

(** Joining lines and splitting again gives the lines back, when there is a
    line and no line holds a boundary. *)
Lemma splitlines_join lines :
  lines <> [] ->
  (forall l c, l ∈ lines -> c ∈ l -> is_linebreak c = false) ->
  splitlines (join_lines lines ++ [0x0A]) = lines.
Proof.
  induction lines as [|l [|l' rest] IH]; intros Hne Hl; [contradiction| |].
  - cbn [join_lines]. rewrite splitlines_line by (intros; apply (Hl l); [left|assumption]).
    reflexivity.
  - rewrite join_lines_cons, <- app_assoc, <- app_comm_cons.
    rewrite splitlines_line by (intros; apply (Hl l); [left|assumption]).
    rewrite IH; [reflexivity | discriminate |].
    intros l0 c Hl0. apply Hl. right. exact Hl0.
Qed.

(** Contents written as encoded joined lines plus a line feed read back as
    those lines. *)
Lemma written_lines_read_back lines encoded :
  utf8_encode (join_lines lines) = Returned encoded ->
  lines <> [] ->
  (forall l c, l ∈ lines -> c ∈ l -> is_linebreak c = false) ->
  splitlines (utf8_decode (encoded ++ bytes_of LF)) = lines.
Proof.
  intros Henc Hne Hl.
  rewrite (utf8_decode_encode (join_lines lines ++ [0x0A])); [exact (splitlines_join _ Hne Hl)|].
  apply utf8_encode_app. exists encoded, (bytes_of LF).
  split; [exact Henc | split; reflexivity].
Qed.

(** ** file-info.py: the blob scrubber *)

Section FileInfoFacts.
Import FileInfo.
Context `{Driver}.
Variable set_order : list key -> list key.
Implicit Types (w : world) (lines : list text) (k : key).

(** Projects the fields of worlds given by their constructor, and decides
    the tests of the log switch with [El]. *)
Ltac norm_world El :=
  repeat (progress (cbn [env repository fetched inserted callback_log fst snd negb];
                    rewrite ?El)).

Lemma logged_nil w : logged w [] = w.
Proof. unfold logged. destruct w as [e r f i l]; cbn. destruct (CALLBACK_LOG e); [rewrite app_nil_r|]; reflexivity. Qed.

Lemma logged_app w m1 m2 : logged (logged w m1) m2 = logged w (m1 ++ m2).
Proof.
  unfold logged. destruct w as [e r f i l]; cbn. destruct (CALLBACK_LOG e) eqn:E; cbn; rewrite ?E.
  - rewrite app_assoc. reflexivity.
  - reflexivity.
Qed.

Lemma log_callback_logged m w : log_callback m w = (Returned tt, logged w [m]).
Proof. reflexivity. Qed.

Lemma line_of_lt decoded len k j : line_of decoded len k = Some j -> (j < len)%nat.
Proof.
  unfold line_of. destruct (py_eq_str k.1 decoded); [|discriminate].
  destruct (int_view k.2) as [[n ?]|]; [|discriminate].
  zbool; try discriminate. intros [= <-]. lia.
Qed.

Lemma blanked_lookup decoded bad lines i :
  blanked decoded bad lines !! i =
  (fun l => if existsb (fun k => bool_decide (line_of decoded (length lines) k = Some i)) bad
            then [] else l) <$> lines !! i.
Proof. unfold blanked. apply list_lookup_imap. Qed.

Lemma blanked_length decoded bad lines : length (blanked decoded bad lines) = length lines.
Proof. unfold blanked. apply length_imap. Qed.

Lemma blanked_nil decoded lines : blanked decoded [] lines = lines.
Proof.
  apply list_eq. intros i. rewrite blanked_lookup. cbn. destruct (lines !! i); reflexivity.
Qed.

Lemma blanked_cons_miss decoded k rest lines :
  line_of decoded (length lines) k = None ->
  blanked decoded (k :: rest) lines = blanked decoded rest lines.
Proof.
  intros Hk. apply list_eq. intros i. rewrite !blanked_lookup. cbn [existsb].
  rewrite Hk. rewrite bool_decide_eq_false_2 by discriminate. reflexivity.
Qed.

Lemma blanked_cons_hit decoded k rest lines j :
  line_of decoded (length lines) k = Some j ->
  blanked decoded (k :: rest) lines = blanked decoded rest (<[j:=[]]> lines).
Proof.
  intros Hk. pose proof (line_of_lt _ _ _ _ Hk) as Hj.
  apply list_eq. intros i. rewrite !blanked_lookup, length_insert. cbn [existsb].
  rewrite Hk. destruct (decide (j = i)) as [->|Hne].
  - rewrite bool_decide_eq_true_2 by reflexivity. cbn [orb].
    rewrite list_lookup_insert_eq by exact Hj.
    destruct (lines !! i) eqn:E; [|apply lookup_ge_None in E; lia].
    cbn. destruct (existsb _ rest); reflexivity.
  - rewrite bool_decide_eq_false_2 by congruence. cbn [orb].
    rewrite list_lookup_insert_ne by exact Hne. reflexivity.
Qed.

(** The loop of lines 44-48, when every finding for the file has a line
    number that compares with an [int]: it returns the buffer with the named
    lines blanked, counts and logs one modification per finding in range. *)
Lemma clean_lines_spec decoded findings : forall lines m w,
  (forall k, k ∈ findings -> py_eq_str k.1 decoded = true -> is_Some (int_view k.2)) ->
  clean_lines decoded findings lines m w =
  (Returned (blanked decoded findings lines,
             m + Z.of_nat (length (removed_messages decoded (length lines) findings))),
   logged w (removed_messages decoded (length lines) findings)).
Proof.
  induction findings as [|[f lnum] rest IH]; intros lines m w Hnum.
  - cbn. rewrite blanked_nil, logged_nil, Z.add_0_r. reflexivity.
  - assert (forall k, k ∈ rest -> py_eq_str k.1 decoded = true -> is_Some (int_view k.2))
      as Hrest by (intros; apply Hnum; [right|]; assumption).
    cbn [clean_lines removed_messages omap list_omap].
    pose proof (Hnum (f, lnum) ltac:(left)) as Hk. cbn [fst snd] in Hk.
    destruct (line_of decoded (length lines) (f, lnum)) as [j|] eqn:Ej;
      pose proof Ej as Ej'; unfold line_of in Ej'; cbn [fst snd] in Ej' |- *;
      destruct (py_eq_str f decoded) eqn:Ef.
    + destruct (Hk eq_refl) as [[n lnum_str] Hv]. rewrite Hv in Ej' |- *.
      destruct ((0 <? n) && (n <=? Z.of_nat (length lines))); [|discriminate].
      injection Ej' as <-. unfold mbind at 1, M_bind at 1. rewrite log_callback_logged.
      rewrite IH by exact Hrest. rewrite length_insert, logged_app.
      rewrite <- (blanked_cons_hit decoded (f, lnum) rest lines _ Ej).
      unfold removed_messages. cbn [length app]. do 3 f_equal. lia.
    + discriminate.
    + destruct (Hk eq_refl) as [[n lnum_str] Hv]. rewrite Hv in Ej' |- *.
      destruct ((0 <? n) && (n <=? Z.of_nat (length lines))); [discriminate|].
      rewrite IH by exact Hrest. rewrite (blanked_cons_miss _ _ _ _ Ej). reflexivity.
    + rewrite IH by exact Hrest. rewrite (blanked_cons_miss _ _ _ _ Ej). reflexivity.
Qed.

Lemma blanked_order decoded order bad lines :
  (forall k, k ∈ order <-> k ∈ bad) ->
  blanked decoded order lines = blanked decoded bad lines.
Proof.
  intros Hsame. apply list_eq. intros i. rewrite !blanked_lookup.
  set (P := fun k => bool_decide (line_of decoded (length lines) k = Some i)).
  replace (existsb P order) with (existsb P bad); [reflexivity|].
  apply eq_true_iff_eq. rewrite !existsb_exists.
  split; intros (k & Hk & HP); exists k; (split; [|exact HP]);
    apply list_elem_of_In; apply list_elem_of_In in Hk; apply Hsame; exact Hk.
Qed.

Lemma blanked_elem decoded bad lines l :
  l ∈ blanked decoded bad lines -> l = [] \/ l ∈ lines.
Proof.
  intros Hl. apply list_elem_of_lookup in Hl as [i Hi].
  rewrite blanked_lookup in Hi. destruct (lines !! i) as [l0|] eqn:E; [|discriminate].
  cbn in Hi. injection Hi as <-.
  destruct (existsb _ bad); [left; reflexivity | right].
  apply list_elem_of_lookup. exists i. exact E.
Qed.

(** The characters of the blanked buffer come from the decoded contents and
    are no line boundaries. *)
Lemma blanked_splitlines_elem decoded bad contents l c :
  l ∈ blanked decoded bad (splitlines (utf8_decode contents)) -> c ∈ l ->
  FileInfo.scalar c /\ is_linebreak c = false.
Proof.
  intros Hl Hc. apply blanked_elem in Hl as [-> | Hl].
  { apply elem_of_nil in Hc. contradiction. }
  destruct (splitlines_elem _ _ _ Hl Hc) as [Hin Hnb]. split; [|exact Hnb].
  pose proof (utf8_decode_scalar contents) as Hs.
  rewrite Forall_forall in Hs. apply Hs. exact Hin.
Qed.

Lemma blanked_encodes decoded bad contents :
  exists encoded,
    utf8_encode (join_lines (blanked decoded bad (splitlines (utf8_decode contents))))
    = Returned encoded.
Proof.
  apply utf8_encode_scalar. apply Forall_forall. intros c Hc.
  apply join_lines_elem in Hc as [-> | (l & Hl & Hc)].
  - unfold scalar. lia.
  - exact (proj1 (blanked_splitlines_elem _ _ _ _ _ Hl Hc)).
Qed.

(** The callback on a file that has a finding, when the findings file loads
    and every finding for the file has a line number that compares with an
    [int]: one fetch, one insert of the re-encoded blanked buffer, and the
    entry returned with the new identifier. *)
Lemma callback_scrub w filename mode blob bad :
  let decoded := utf8_decode filename in
  let lines := splitlines (utf8_decode (get_contents_by_identifier (repository w) blob)) in
  load_bad_lines (GITLEAKS_FILE (env w)) = Returned bad ->
  has_secret decoded bad = true ->
  comparable decoded bad ->
  set_order bad ≡ₚ bad ->
  exists encoded,
    utf8_encode (join_lines (blanked decoded bad lines)) = Returned encoded /\
    let new_contents := encoded ++ bytes_of LF in
    let msgs := removed_messages decoded (length lines) (set_order bad) in
    callback set_order filename mode blob w =
    (Returned (filename, mode, (insert_file_with_contents (repository w) new_contents).1),
     World (env w) (insert_file_with_contents (repository w) new_contents).2
       (fetched w ++ [blob]) (inserted w ++ [new_contents])
       (callback_log
          (logged w ([msg_loaded (length bad); msg_processing decoded; msg_found decoded]
                     ++ msgs
                     ++ [msg_modified (Z.of_nat (length msgs)) decoded (length lines)])))).
Proof.
  intros decoded lines Hload Hex Hnum Hperm.
  unfold comparable in Hnum. rewrite Forall_forall in Hnum.
  assert (forall k, k ∈ set_order bad <-> k ∈ bad) as Hsame
    by (intros k; rewrite Hperm; reflexivity).
  destruct (blanked_encodes decoded bad (get_contents_by_identifier (repository w) blob))
    as [encoded Henc].
  exists encoded. split; [exact Henc|]. intros new_contents msgs.
  fold lines in Henc. destruct w as [e r f i l].
  cbn [env repository fetched inserted callback_log] in *.
  unfold callback, mbind, M_bind, get_world, lift_outcome, log_callback, modify_world,
    fetch, insert, mret, M_ret.
  cbn [env repository fetched inserted callback_log]. rewrite Hload. fold decoded.
  rewrite Hex. cbn [negb].
  destruct (CALLBACK_LOG e) eqn:El; norm_world El; fold lines;
    (rewrite clean_lines_spec by (intros k Hk; apply Hnum, Hsame, Hk));
    rewrite (blanked_order decoded _ bad lines Hsame), Henc;
    fold new_contents; fold msgs; unfold logged; norm_world El;
    destruct (insert_file_with_contents r new_contents) as [id r'];
    norm_world El; rewrite ?Z.add_0_l, <- ?app_assoc; reflexivity.
Qed.

Lemma callback_no_secret w filename mode blob bad :
  load_bad_lines (GITLEAKS_FILE (env w)) = Returned bad ->
  has_secret (utf8_decode filename) bad = false ->
  callback set_order filename mode blob w =
  (Returned (filename, mode, blob),
   logged w [msg_loaded (length bad); msg_processing (utf8_decode filename);
             msg_no_secrets (utf8_decode filename)]).
Proof.
  intros Hload Hex. destruct w as [e r f i l].
  cbn [env repository fetched inserted callback_log] in *.
  unfold callback, mbind, M_bind, get_world, lift_outcome, log_callback, modify_world,
    mret, M_ret, logged.
  cbn [env repository fetched inserted callback_log]. rewrite Hload, Hex. cbn [negb].
  destruct (CALLBACK_LOG e) eqn:El; norm_world El; rewrite <- ?app_assoc; reflexivity.
Qed.

Lemma callback_returns_path_mode w filename mode blob r w' :
  callback set_order filename mode blob w = (Returned r, w') ->
  r.1.1 = filename /\ r.1.2 = mode.
Proof.
  unfold callback, mbind, M_bind, get_world, lift_outcome, log_callback, modify_world,
    fetch, insert, mret, M_ret.
  destruct (load_bad_lines _) as [bad|x]; [|discriminate].
  destruct (negb _); [intros [= <- _]; split; reflexivity|].
  match goal with |- context [clean_lines ?d ?o ?l ?m ?w0] =>
    destruct (clean_lines d o l m w0) as [[[ls n]|x] w1] end; [|discriminate].
  destruct (utf8_encode _) as [enc|x]; [|discriminate].
  destruct (insert_file_with_contents _ _) as [id r'].
  intros [= <- _]. split; reflexivity.
Qed.

(** C2. An entry whose decoded path has no finding is returned as it is,
    and the world changes by log messages only: nothing is fetched, nothing
    is inserted.  Whenever the callback returns, with or without rewriting,
    the path and the mode it returns are the ones it was given. *)
Theorem scrub_passthrough :
  (forall (w : world) (filename mode : bytes) (blob : blob_id) (bad : list key),
     load_bad_lines (GITLEAKS_FILE (env w)) = Returned bad ->
     has_secret (utf8_decode filename) bad = false ->
     exists log',
       callback set_order filename mode blob w =
       (Returned (filename, mode, blob),
        World (env w) (repository w) (fetched w) (inserted w) log')) /\
  (forall (w w' : world) (filename mode : bytes) (blob : blob_id) r,
     callback set_order filename mode blob w = (Returned r, w') ->
     r.1.1 = filename /\ r.1.2 = mode).
Proof.
  split.
  - intros w filename mode blob bad Hload Hex.
    rewrite (callback_no_secret _ _ _ _ _ Hload Hex). unfold logged.
    destruct w as [e r f i l]; cbn. destruct (CALLBACK_LOG e); eexists; reflexivity.
  - intros w w' filename mode blob r. apply callback_returns_path_mode.
Qed.

(** C3. On a file with findings, each finding for the file whose line
    number n has 0 < n <= number of lines makes line n (index n - 1 of the
    buffer) empty; the buffer keeps its length, and a line that no such
    finding names keeps its content at its index.  The buffer so blanked is
    what is written back: the new contents split into exactly these lines. *)
Theorem blank_valid_lines (w : world) (filename mode : bytes) (blob : blob_id)
    (bad : list key) :
  let decoded := utf8_decode filename in
  let lines := splitlines (utf8_decode (get_contents_by_identifier (repository w) blob)) in
  load_bad_lines (GITLEAKS_FILE (env w)) = Returned bad ->
  has_secret decoded bad = true ->
  comparable decoded bad ->
  set_order bad ≡ₚ bad ->
  exists (final : list text) (encoded : bytes) (new_id : blob_id) (w' : world),
    callback set_order filename mode blob w = (Returned (filename, mode, new_id), w') /\
    inserted w' = inserted w ++ [encoded ++ bytes_of LF] /\
    utf8_encode (join_lines final) = Returned encoded /\
    length final = length lines /\
    (forall k n lnum_str,
       k ∈ bad -> k.1 = PyStr decoded -> int_view k.2 = Some (n, lnum_str) ->
       0 < n <= Z.of_nat (length lines) ->
       final !! Z.to_nat (n - 1) = Some []) /\
    (forall i,
       (forall k n lnum_str,
          k ∈ bad -> k.1 = PyStr decoded -> int_view k.2 = Some (n, lnum_str) ->
          0 < n <= Z.of_nat (length lines) -> Z.to_nat (n - 1) <> i) ->
       final !! i = lines !! i) /\
    (lines <> [] -> splitlines (utf8_decode (encoded ++ bytes_of LF)) = final).
Proof.
  intros decoded lines Hload Hex Hnum Hperm.
  destruct (callback_scrub w filename mode blob bad Hload Hex Hnum Hperm)
    as (encoded & Henc & Hcall).
  exists (blanked decoded bad lines), encoded. eexists. eexists.
  split; [exact Hcall|]. split; [reflexivity|]. split; [exact Henc|].
  split; [apply blanked_length|]. split; [|split].
  3: { intros Hne. apply (written_lines_read_back _ _ Henc).
       - intros Hnil. apply Hne. apply length_zero_iff_nil.
         rewrite <- (blanked_length decoded bad lines).
         apply length_zero_iff_nil. exact Hnil.
       - intros l c Hl Hc. exact (proj2 (blanked_splitlines_elem _ _ _ _ _ Hl Hc)). }
  - intros k n lnum_str Hk Hf Hv Hn. rewrite blanked_lookup.
    assert (line_of decoded (length lines) k = Some (Z.to_nat (n - 1))) as Hline.
    { unfold line_of. rewrite Hf, Hv. cbn [py_eq_str]. rewrite bool_decide_eq_true_2 by reflexivity.
      zbool; try lia. reflexivity. }
    destruct (lines !! Z.to_nat (n - 1)) as [l|] eqn:El;
      [|apply lookup_ge_None in El; lia].
    cbn. replace (existsb _ bad) with true; [reflexivity|].
    symmetry. apply existsb_exists. exists k. split; [apply list_elem_of_In; exact Hk|].
    apply bool_decide_eq_true_2. exact Hline.
  - intros i Hi. rewrite blanked_lookup.
    replace (existsb _ bad) with false; [destruct (lines !! i); reflexivity|].
    symmetry. apply not_true_is_false. intros Hx.
    apply existsb_exists in Hx as (k & Hk & Hline). apply list_elem_of_In in Hk.
    apply bool_decide_eq_true_1 in Hline. unfold line_of in Hline.
    destruct k as [f lnum]. cbn [fst snd] in *.
    destruct f as [| | |s| |]; cbn [py_eq_str] in Hline; try discriminate.
    case_bool_decide as Hs; [subst s|discriminate].
    destruct (int_view lnum) as [[n lnum_str]|] eqn:Hv; [|discriminate].
    zbool; try discriminate. injection Hline as Hline.
    apply (Hi (PyStr decoded, lnum) n lnum_str Hk eq_refl Hv); [lia | exact Hline].
Qed.

Lemma out_of_range_line_of decoded len bad k :
  out_of_range decoded len bad -> k ∈ bad -> line_of decoded len k = None.
Proof.
  unfold out_of_range. rewrite Forall_forall. intros Hout Hk. specialize (Hout k Hk).
  unfold line_of. destruct (py_eq_str k.1 decoded); [|reflexivity].
  destruct (Hout eq_refl) as (n & lnum_str & -> & Hn). zbool; [lia | reflexivity..].
Qed.

Lemma out_of_range_comparable decoded len bad :
  out_of_range decoded len bad -> comparable decoded bad.
Proof.
  unfold out_of_range, comparable. intros Hout. eapply Forall_impl; [exact Hout|].
  cbn beta. intros k Hk Hf. destruct (Hk Hf) as (n & lnum_str & -> & _). eexists. reflexivity.
Qed.

Lemma blanked_none decoded bad lines :
  (forall k, k ∈ bad -> line_of decoded (length lines) k = None) ->
  blanked decoded bad lines = lines.
Proof.
  induction bad as [|k rest IH]; intros Hnone; [apply blanked_nil|].
  rewrite blanked_cons_miss by (apply Hnone; left).
  apply IH. intros k' Hk'. apply Hnone. right. exact Hk'.
Qed.

Lemma removed_messages_none decoded len findings :
  (forall k, k ∈ findings -> line_of decoded len k = None) ->
  removed_messages decoded len findings = [].
Proof.
  induction findings as [|k rest IH]; intros Hnone; [reflexivity|].
  unfold removed_messages. cbn [omap list_omap]. rewrite (Hnone k) by left.
  apply IH. intros k' Hk'. apply Hnone. right. exact Hk'.
Qed.

(** C4, as the code has it.  When every finding for the file is out of
    range (line number at most 0, or above the number of lines), the
    callback returns without an exception, no line of the buffer is blanked
    and no per-line message is logged: the contents written are the decoded
    lines of the original joined by line feeds, plus one line feed, and the
    log gains the four informational messages, with a count of 0.  The new
    contents have the lines of the original, when it has any. *)
Theorem out_of_range_findings_skipped (w : world) (filename mode : bytes) (blob : blob_id)
    (bad : list key) :
  let decoded := utf8_decode filename in
  let lines := splitlines (utf8_decode (get_contents_by_identifier (repository w) blob)) in
  load_bad_lines (GITLEAKS_FILE (env w)) = Returned bad ->
  has_secret decoded bad = true ->
  out_of_range decoded (length lines) bad ->
  set_order bad ≡ₚ bad ->
  exists (encoded : bytes) (new_id : blob_id) (repo' : repo),
    utf8_encode (join_lines lines) = Returned encoded /\
    callback set_order filename mode blob w =
    (Returned (filename, mode, new_id),
     World (env w) repo' (fetched w ++ [blob]) (inserted w ++ [encoded ++ bytes_of LF])
       (callback_log
          (logged w [msg_loaded (length bad); msg_processing decoded; msg_found decoded;
                     msg_modified 0 decoded (length lines)]))) /\
    (lines <> [] -> splitlines (utf8_decode (encoded ++ bytes_of LF)) = lines).
Proof.
  intros decoded lines Hload Hex Hout Hperm.
  destruct (callback_scrub w filename mode blob bad Hload Hex
              (out_of_range_comparable _ _ _ Hout) Hperm) as (encoded & Henc & Hcall).
  fold decoded lines in Henc, Hcall.
  rewrite blanked_none in Henc by (intros k Hk; exact (out_of_range_line_of _ _ _ _ Hout Hk)).
  rewrite removed_messages_none in Hcall
    by (intros k Hk; apply (out_of_range_line_of _ _ bad); [exact Hout | rewrite <- Hperm; exact Hk]).
  exists encoded. eexists. eexists. split; [exact Henc | split; [exact Hcall|]].
  intros Hne. apply (written_lines_read_back _ _ Henc Hne).
  intros l c Hl Hc. exact (proj2 (splitlines_elem _ _ _ Hl Hc)).
Qed.

(** C5, as the code has it.  On a file with findings the contents written
    are the blanked lines joined by single line feeds, followed by one
    appended line feed; they end in exactly one line feed unless there are
    two or more lines and the last one is empty after blanking. *)
Theorem scrub_appends_one_newline (w : world) (filename mode : bytes) (blob : blob_id)
    (bad : list key) :
  let decoded := utf8_decode filename in
  let lines := splitlines (utf8_decode (get_contents_by_identifier (repository w) blob)) in
  let final := blanked decoded bad lines in
  load_bad_lines (GITLEAKS_FILE (env w)) = Returned bad ->
  has_secret decoded bad = true ->
  comparable decoded bad ->
  set_order bad ≡ₚ bad ->
  exists (encoded : bytes) (new_id : blob_id) (w' : world),
    callback set_order filename mode blob w = (Returned (filename, mode, new_id), w') /\
    inserted w' = inserted w ++ [encoded ++ bytes_of LF] /\
    utf8_encode (join_lines final) = Returned encoded /\
    (ends_in_one_newline (encoded ++ bytes_of LF) <->
     ~ ((2 <= length final)%nat /\ last final = Some [])).
Proof.
  intros decoded lines final Hload Hex Hnum Hperm.
  destruct (callback_scrub w filename mode blob bad Hload Hex Hnum Hperm)
    as (encoded & Henc & Hcall).
  exists encoded. eexists. eexists.
  split; [exact Hcall|]. split; [reflexivity|]. split; [exact Henc|].
  fold decoded lines final in Henc.
  rewrite <- join_lines_last.
  - rewrite <- (utf8_encode_last_newline _ _ Henc). unfold ends_in_one_newline. split.
    + intros (body & Hbody & Hlast). apply app_inj_tail in Hbody as [-> _]. exact Hlast.
    + intros Hlast. exists encoded. split; [reflexivity | exact Hlast].
  - intros l Hl Hc. destruct (blanked_splitlines_elem _ _ _ _ _ Hl Hc) as [_ Hnb].
    discriminate.
Qed.

Lemma add_findings_malformed entries : forall acc,
  Exists (fun e => ~ entry_ok e) entries -> exists x, add_findings entries acc = Raised x.
Proof.
  induction entries as [|e rest IH]; intros acc Hbad; [inversion Hbad|].
  cbn [add_findings].
  destruct (py_getitem e (text_of "File")) as [file|x] eqn:Ef; [|eexists; reflexivity].
  destruct (py_getitem e (text_of "StartLine")) as [start_line|x] eqn:El;
    [|eexists; reflexivity].
  destruct (hashable file && hashable start_line) eqn:Eh; [|eexists; reflexivity].
  apply Exists_cons in Hbad as [Hbad|Hbad]; [|apply IH; exact Hbad].
  exfalso. apply Hbad. exists file, start_line. split; [exact Ef | split; [exact El | exact Eh]].
Qed.

(** C8. When the findings file cannot be read or parsed the exception of
    the read escapes the callback, which has then done nothing: no message
    logged, no blob fetched or inserted, no entry returned.  The same holds
    for any exception raised while the set of findings is built, as one is
    when an entry of the file lacks its [File] or [StartLine]: no call goes on
    with part of the findings. *)
Theorem findings_failure_is_fatal :
  (forall (src : json_source) (x : exn),
     load_json src = Raised x -> load_bad_lines src = Raised x) /\
  (forall entries : list pyval,
     Exists (fun e => ~ entry_ok e) entries ->
     exists x, load_bad_lines (Parsed (PyList entries)) = Raised x) /\
  (forall (w : world) (filename mode : bytes) (blob : blob_id) (x : exn),
     load_bad_lines (GITLEAKS_FILE (env w)) = Raised x ->
     callback set_order filename mode blob w = (Raised x, w)).
Proof.
  split; [|split].
  - intros src x Hx. unfold load_bad_lines. rewrite Hx. reflexivity.
  - intros entries Hbad. apply add_findings_malformed. exact Hbad.
  - intros w filename mode blob x Hx.
    unfold callback, mbind, M_bind, get_world, lift_outcome. rewrite Hx. reflexivity.
Qed.

(** C10. On a file with findings the contents written hold no line
    boundary but the line feed: they encode a text, the blanked lines
    joined by line feeds, in which the only boundary character is the line
    feed, and none of their bytes is a carriage return (or VT, FF, FS, GS,
    RS), whichever lines the findings name. *)
Theorem line_separators_normalised (w : world) (filename mode : bytes) (blob : blob_id)
    (bad : list key) :
  let decoded := utf8_decode filename in
  let lines := splitlines (utf8_decode (get_contents_by_identifier (repository w) blob)) in
  let joined := join_lines (blanked decoded bad lines) in
  load_bad_lines (GITLEAKS_FILE (env w)) = Returned bad ->
  has_secret decoded bad = true ->
  comparable decoded bad ->
  set_order bad ≡ₚ bad ->
  exists (encoded : bytes) (new_id : blob_id) (w' : world),
    callback set_order filename mode blob w = (Returned (filename, mode, new_id), w') /\
    inserted w' = inserted w ++ [encoded ++ bytes_of LF] /\
    utf8_encode joined = Returned encoded /\
    (forall c, c ∈ joined -> is_linebreak c = true -> c = 0x0A) /\
    (forall x, x ∈ encoded ++ bytes_of LF ->
       x ∉ [Byte.x0b; Byte.x0c; Byte.x0d; Byte.x1c; Byte.x1d; Byte.x1e]).
Proof.
  intros decoded lines joined Hload Hex Hnum Hperm.
  destruct (callback_scrub w filename mode blob bad Hload Hex Hnum Hperm)
    as (encoded & Henc & Hcall).
  fold decoded lines joined in Henc.
  assert (forall c, c ∈ joined -> is_linebreak c = true -> c = 10) as Hbreaks.
  { intros c Hc Hb. apply join_lines_elem in Hc as [-> | (l & Hl & Hc)]; [reflexivity|].
    destruct (blanked_splitlines_elem _ _ _ _ _ Hl Hc) as [_ Hnb]. congruence. }
  exists encoded. eexists. eexists.
  split; [exact Hcall|]. split; [reflexivity|]. split; [exact Henc|].
  split; [exact Hbreaks|].
  intros x Hx Hbad. apply elem_of_app in Hx as [Hx|Hx].
  - assert (byte_to_Z x < 128) as Hlt
      by (repeat (apply elem_of_cons in Hbad as [-> | Hbad]); [reflexivity..|];
          apply elem_of_nil in Hbad; contradiction).
    pose proof (utf8_encode_elem _ _ _ Henc Hx Hlt) as Hin.
    assert (is_linebreak (byte_to_Z x) = true) as Hb
      by (repeat (apply elem_of_cons in Hbad as [-> | Hbad]); [reflexivity..|];
          apply elem_of_nil in Hbad; contradiction).
    specialize (Hbreaks _ Hin Hb).
    repeat (apply elem_of_cons in Hbad as [-> | Hbad]); try discriminate.
    apply elem_of_nil in Hbad. contradiction.
  - apply list_elem_of_singleton in Hx as ->.
    repeat (apply elem_of_cons in Hbad as [Hbad | Hbad]); try discriminate.
    apply elem_of_nil in Hbad. contradiction.
Qed.

End FileInfoFacts.

(** ** The claims at sample inputs *)

Section Samples.
Import Sample.

(** Two visits of [abc123] with a total of 10 leave one progress line. *)
Lemma ledger_one_line_per_distinct_id_witness :
  exists w',
    Commit.run tenths ["abc123"; "abc123"]%string (Commit.start commit_env [] []) =
    (Returned tt, w') /\
    Commit.progress_file w' = ["abc123 10 seen 1 processed 10.0%" +:+ LF]%string.
Proof.
  destruct (ledger_one_line_per_distinct_id tenths commit_env [] []
              ["abc123"; "abc123"]%string 10 "10" eq_refl eq_refl)
    as (_ & (w' & Hrun & Hprogress & _) & _).
  exists w'. split; [exact Hrun | exact Hprogress].
Defined.

Lemma stats_failure_defaults_to_zero_witness :
  exists log',
    Commit.record tenths "abc123" (Commit.start commit_env_no_stats [] []) =
    (Returned tt,
     Commit.World commit_env_no_stats
       (Commit.Globals (Some (PyInt 0)) (Some {["abc123"%string]}) (Some 1))
       ["abc123 0 seen 1 processed 0.0%" +:+ LF]%string log').
Proof.
  exact (proj1 (stats_failure_defaults_to_zero tenths) commit_env_no_stats [] []
           "abc123"%string OSError eq_refl eq_refl).
Defined.

Lemma redact_literal_replacement_witness :
  Message.redact (bytes_of "no secret here") = bytes_of "no secret here".
Proof.
  apply (proj1 (proj2 (proj2 redact_literal_replacement))).
  apply bytes_contains_false. reflexivity.
Defined.

Lemma sample_comparable file line decoded :
  FileInfo.comparable decoded [(PyStr (text_of file), PyInt line)].
Proof. repeat constructor. intros _. eexists. reflexivity. Qed.

Lemma scrub_passthrough_witness :
  exists log',
    FileInfo.callback in_order (bytes_of "b.txt") mode_644 0%nat
      (file_world sample_contents "a.txt" 2) =
    (Returned (bytes_of "b.txt", mode_644, 0%nat),
     FileInfo.World (FileInfo.Environ (findings "a.txt" 2) true) [sample_contents] [] [] log').
Proof.
  exact (proj1 (scrub_passthrough in_order) (file_world sample_contents "a.txt" 2)
           (bytes_of "b.txt") mode_644 0%nat _ eq_refl eq_refl).
Defined.

Lemma blank_valid_lines_witness :
  exists final encoded new_id w',
    FileInfo.callback in_order (bytes_of "a.txt") mode_644 0%nat
      (file_world sample_contents "a.txt" 2) =
    (Returned (bytes_of "a.txt", mode_644, new_id), w') /\
    FileInfo.inserted w' = [encoded ++ bytes_of LF] /\
    utf8_encode (join_lines final) = Returned encoded /\
    length final = 3%nat /\ final !! 1%nat = Some [].
Proof.
  destruct (blank_valid_lines in_order (file_world sample_contents "a.txt" 2)
              (bytes_of "a.txt") mode_644 0%nat _ eq_refl eq_refl
              (sample_comparable _ _ _) (reflexivity _))
    as (final & encoded & new_id & w' & Hcall & Hins & Henc & Hlen & Hblank & _).
  exists final, encoded, new_id, w'.
  split; [exact Hcall|]. split; [exact Hins|]. split; [exact Henc|]. split; [exact Hlen|].
  apply (Hblank (PyStr (text_of "a.txt"), PyInt 2) 2 "2"%string);
    [left | reflexivity | reflexivity | split; [lia | apply Z.leb_le; vm_compute; reflexivity]].
Defined.

(** C4 as stated fails: with contents [a] (one line, no final line feed)
    and the only finding at line 2, the contents written are [a\n]. *)
Lemma out_of_range_finding_changes_content :
  let w := file_world (bytes_of "a") "a.txt" 2 in
  FileInfo.load_bad_lines (FileInfo.GITLEAKS_FILE (FileInfo.env w))
    = Returned [(PyStr (text_of "a.txt"), PyInt 2)] /\
  splitlines (utf8_decode (FileInfo.get_contents_by_identifier (FileInfo.repository w) 0%nat))
    = [text_of "a"] /\
  exists new_id w',
    FileInfo.callback in_order (bytes_of "a.txt") mode_644 0%nat w =
    (Returned (bytes_of "a.txt", mode_644, new_id), w') /\
    FileInfo.get_contents_by_identifier (FileInfo.repository w') new_id
      = bytes_of ("a" +:+ LF) /\
    FileInfo.get_contents_by_identifier (FileInfo.repository w') new_id
      <> FileInfo.get_contents_by_identifier (FileInfo.repository w) 0%nat.
Proof.
  cbv zeta. split; [reflexivity|]. split; [reflexivity|].
  eexists. eexists. split; [vm_compute; reflexivity|].
  split; [reflexivity | discriminate].
Qed.

Lemma sample_out_of_range :
  FileInfo.out_of_range (text_of "a.txt") 1 [(PyStr (text_of "a.txt"), PyInt 2)].
Proof. repeat constructor. intros _. exists 2, "2"%string. split; [reflexivity | cbn; lia]. Qed.

Lemma out_of_range_findings_skipped_witness :
  exists encoded new_id repo',
    utf8_encode (join_lines [text_of "a"]) = Returned encoded /\
    FileInfo.callback in_order (bytes_of "a.txt") mode_644 0%nat
      (file_world (bytes_of "a") "a.txt" 2) =
    (Returned (bytes_of "a.txt", mode_644, new_id),
     FileInfo.World (FileInfo.Environ (findings "a.txt" 2) true) repo' [0%nat]
       [encoded ++ bytes_of LF]
       [FileInfo.msg_loaded 1; FileInfo.msg_processing (text_of "a.txt");
        FileInfo.msg_found (text_of "a.txt");
        FileInfo.msg_modified 0 (text_of "a.txt") 1]).
Proof.
  destruct (out_of_range_findings_skipped in_order (file_world (bytes_of "a") "a.txt" 2)
              (bytes_of "a.txt") mode_644 0%nat _ eq_refl eq_refl sample_out_of_range
              (reflexivity _))
    as (encoded & new_id & repo' & Henc & Hcall & _).
  exists encoded, new_id, repo'. split; [exact Henc | exact Hcall].
Defined.

(** C5 as stated fails: with contents [a\nb] and a finding at line 2 the
    contents written are [a\n\n], which end in two line feeds. *)
Lemma blanked_last_line_two_newlines :
  let w := file_world (bytes_of ("a" +:+ LF +:+ "b")) "a.txt" 2 in
  exists new_id w',
    FileInfo.callback in_order (bytes_of "a.txt") mode_644 0%nat w =
    (Returned (bytes_of "a.txt", mode_644, new_id), w') /\
    FileInfo.inserted w' = [bytes_of ("a" +:+ LF +:+ LF)] /\
    ~ FileInfo.ends_in_one_newline (bytes_of ("a" +:+ LF +:+ LF)).
Proof.
  cbv zeta. eexists. eexists. split; [vm_compute; reflexivity|]. split; [reflexivity|].
  intros (body & Hbody & Hlast). apply Hlast.
  change (bytes_of ("a" +:+ LF +:+ LF)) with (bytes_of ("a" +:+ LF) ++ bytes_of LF) in Hbody.
  apply app_inj_tail in Hbody as [<- _]. reflexivity.
Qed.

Lemma scrub_appends_one_newline_witness :
  exists encoded new_id w',
    FileInfo.callback in_order (bytes_of "a.txt") mode_644 0%nat
      (file_world sample_contents "a.txt" 2) =
    (Returned (bytes_of "a.txt", mode_644, new_id), w') /\
    FileInfo.inserted w' = [encoded ++ bytes_of LF] /\
    FileInfo.ends_in_one_newline (encoded ++ bytes_of LF).
Proof.
  destruct (scrub_appends_one_newline in_order (file_world sample_contents "a.txt" 2)
              (bytes_of "a.txt") mode_644 0%nat _ eq_refl eq_refl
              (sample_comparable _ _ _) (reflexivity _))
    as (encoded & new_id & w' & Hcall & Hins & _ & Hone).
  exists encoded, new_id, w'. split; [exact Hcall|]. split; [exact Hins|].
  apply Hone. intros [_ Hlast]. discriminate Hlast.
Defined.

Lemma findings_failure_is_fatal_witness :
  FileInfo.callback in_order (bytes_of "a.txt") mode_644 0%nat
    (FileInfo.World (FileInfo.Environ Malformed true) [sample_contents] [] [] []) =
  (Raised JSONDecodeError,
   FileInfo.World (FileInfo.Environ Malformed true) [sample_contents] [] [] []).
Proof.
  exact (proj2 (proj2 (findings_failure_is_fatal in_order))
           (FileInfo.World (FileInfo.Environ Malformed true) [sample_contents] [] [] [])
           (bytes_of "a.txt") mode_644 0%nat JSONDecodeError eq_refl).
Defined.

(** Contents [a\r\nb\rc] with a finding at line 3: written as [a\nb\n\n]. *)
Lemma line_separators_normalised_witness :
  exists encoded new_id w',
    FileInfo.callback in_order (bytes_of "a.txt") mode_644 0%nat
      (file_world (bytes_of ("a" +:+ CR +:+ LF +:+ "b" +:+ CR +:+ "c")) "a.txt" 3) =
    (Returned (bytes_of "a.txt", mode_644, new_id), w') /\
    FileInfo.inserted w' = [encoded ++ bytes_of LF] /\
    utf8_encode (text_of ("a" +:+ LF +:+ "b" +:+ LF)) = Returned encoded /\
    Byte.x0d ∉ encoded ++ bytes_of LF.
Proof.
  destruct (line_separators_normalised in_order
              (file_world (bytes_of ("a" +:+ CR +:+ LF +:+ "b" +:+ CR +:+ "c")) "a.txt" 3)
              (bytes_of "a.txt") mode_644 0%nat _ eq_refl eq_refl
              (sample_comparable _ _ _) (reflexivity _))
    as (encoded & new_id & w' & Hcall & Hins & Henc & _ & Hbytes).
  exists encoded, new_id, w'. split; [exact Hcall|]. split; [exact Hins|].
  split; [exact Henc|]. intros Hx. apply (Hbytes _ Hx). set_solver.
Defined.

End Samples.

(** * Further properties *)

(** ** commit.py: failures, memoization, invariants *)

Section CommitMore.
Import Commit.
Variable fmt : Z -> Z -> string.

Ltac step_commit :=
  cbv [record init_total_commits init_seen_hashes init_processed_count
       log_callback append_progress get_global set_seen_hashes set_total_commits
       set_processed_count set_glob modify_world get_world lift_outcome try_except
       mbind mret M_bind M_ret percentage];
  cbn [env glob progress_file callback_log total_commits seen_hashes processed_count
       CALLBACK_LOG PROGRESS_FILE STATS_FILE fst snd].

(** Lines 6-18 fill in the names that are missing and leave the others. *)
Lemma record_init e ot os oc progress log h :
  record fmt h (World e (Globals ot os oc) progress log) =
  record fmt h
    (World e (Globals (Some (default (stats_total (STATS_FILE e)) ot))
                (Some (default ∅ os)) (Some (default 0 oc))) progress log).
Proof.
  unfold stats_total. step_commit.
  destruct ot, os, oc; cbn; try reflexivity;
    destruct (STATS_FILE e) as [| | |[]]; reflexivity.
Qed.

Lemma record_new_type_error e t seen c progress log h :
  h ∉ seen -> int_view t = None ->
  record fmt h (World e (Globals (Some t) (Some seen) (Some c)) progress log) =
  (Raised TypeError,
   World e (Globals (Some t) (Some (seen ∪ {[h]})) (Some (c + 1))) progress
     (logged e log ["Processing commit " +:+ h]%string)).
Proof.
  intros Hin Ht. unfold logged. destruct (CALLBACK_LOG e) eqn:El.
  all: step_commit; rewrite ?El; step_commit.
  all: rewrite (decide_False _ _ Hin); step_commit; rewrite ?El, Ht; reflexivity.
Qed.

Lemma record_new_os_error e t tz ts seen c progress log h :
  h ∉ seen -> int_view t = Some (tz, ts) -> PROGRESS_FILE e = false ->
  record fmt h (World e (Globals (Some t) (Some seen) (Some c)) progress log) =
  (Raised OSError,
   World e (Globals (Some t) (Some (seen ∪ {[h]})) (Some (c + 1))) progress
     (logged e log ["Processing commit " +:+ h]%string)).
Proof.
  intros Hin Ht Hp. unfold logged. destruct (CALLBACK_LOG e) eqn:El.
  all: step_commit; rewrite ?El; step_commit.
  all: rewrite (decide_False _ _ Hin); step_commit; rewrite ?El, Ht; step_commit.
  all: rewrite Hp; reflexivity.
Qed.

(** What one call does to a world whose names are all set: the outcome, the
    new set and counter, the lines added to the progress file. *)
Lemma record_cases e t seen c progress log h :
  exists r seen' c' added log',
    record fmt h (World e (Globals (Some t) (Some seen) (Some c)) progress log) =
    (r, World e (Globals (Some t) (Some seen') (Some c')) (progress ++ added) log') /\
    ((h ∈ seen /\ r = Returned tt /\ seen' = seen /\ c' = c /\ added = []) \/
     ((h ∉ seen) /\ seen' = seen ∪ {[h]} /\ c' = c + 1 /\
      ((exists tz ts, int_view t = Some (tz, ts) /\ PROGRESS_FILE e = true /\
          r = Returned tt /\
          added = [progress_line h ts (c + 1)
                     (if 0 <? tz then fmt (c + 1) tz else "0.0"%string)]) \/
       (int_view t = None /\ r = Raised TypeError /\ added = []) \/
       (is_Some (int_view t) /\ PROGRESS_FILE e = false /\ r = Raised OSError /\
          added = [])))).
Proof.
  destruct (decide (h ∈ seen)) as [Hin|Hin].
  { rewrite record_seen by exact Hin. exists (Returned tt), seen, c, []. eexists.
    rewrite app_nil_r. split; [reflexivity|]. left. repeat split. exact Hin. }
  destruct (int_view t) as [[tz ts]|] eqn:Ht.
  - destruct (PROGRESS_FILE e) eqn:Hp.
    + rewrite (record_new fmt e t tz ts) by assumption.
      do 5 eexists. split; [reflexivity|]. right. repeat split; [exact Hin|].
      left. exists tz, ts. repeat split; reflexivity.
    + rewrite (record_new_os_error e t tz ts) by assumption.
      exists (Raised OSError), (seen ∪ {[h]}), (c + 1), []. eexists.
      rewrite app_nil_r. split; [reflexivity|]. right. repeat split; [exact Hin|].
      right. right. repeat split. eexists. reflexivity.
  - rewrite record_new_type_error by assumption.
    exists (Raised TypeError), (seen ∪ {[h]}), (c + 1), []. eexists.
    rewrite app_nil_r. split; [reflexivity|]. right. repeat split; [exact Hin|].
    right. left. repeat split.
Qed.

(** X1. Once [total_commits] is in the globals the stats file is not read
    again: a call gives the same outcome, globals, progress file and log
    whatever the stats file has become, and leaves the total as it was. *)
Theorem total_commits_read_once (e e' : environ) (g : globals) (t : pyval)
    (progress log : list string) (h : string) :
  total_commits g = Some t ->
  PROGRESS_FILE e = PROGRESS_FILE e' -> CALLBACK_LOG e = CALLBACK_LOG e' ->
  let r := record fmt h (World e g progress log) in
  let r' := record fmt h (World e' g progress log) in
  r.1 = r'.1 /\ glob r.2 = glob r'.2 /\ progress_file r.2 = progress_file r'.2 /\
  callback_log r.2 = callback_log r'.2 /\ total_commits (glob r.2) = Some t.
Proof.
  intros Ht Hp Hl r r'. subst r r'. destruct g as [ot os oc].
  cbn [total_commits] in Ht. subst ot.
  rewrite (record_init e), (record_init e'). cbn [default from_option id].
  set (seen := default ∅ os). set (c := default 0 oc).
  destruct (decide (h ∈ seen)) as [Hin|Hin].
  { rewrite !record_seen by exact Hin. unfold logged. rewrite Hl.
    cbn [fst snd env glob progress_file callback_log total_commits seen_hashes processed_count STATS_FILE PROGRESS_FILE CALLBACK_LOG]. repeat split. }
  destruct (int_view t) as [[tz ts]|] eqn:Hv.
  - destruct (PROGRESS_FILE e) eqn:Hpe; symmetry in Hp.
    + rewrite !(record_new fmt _ t tz ts) by assumption.
      unfold logged. rewrite Hl. cbn [fst snd env glob progress_file callback_log total_commits seen_hashes processed_count STATS_FILE PROGRESS_FILE CALLBACK_LOG]. repeat split.
    + rewrite !(record_new_os_error _ t tz ts) by assumption.
      unfold logged. rewrite Hl. cbn [fst snd env glob progress_file callback_log total_commits seen_hashes processed_count STATS_FILE PROGRESS_FILE CALLBACK_LOG]. repeat split.
  - rewrite !record_new_type_error by assumption. unfold logged. rewrite Hl.
    cbn [fst snd env glob progress_file callback_log total_commits seen_hashes processed_count STATS_FILE PROGRESS_FILE CALLBACK_LOG]. repeat split.
Qed.


(** X3. A [total_commits] that is not a number ([None], a string, a list, an
    object) is stored as it is; the first call for a commit not seen before
    then raises [TypeError] at the comparison with 0, after the commit was
    added to the seen set and counted, and nothing is written to the
    progress file.  A call for a commit already seen still returns. *)
Theorem non_numeric_total_raises (e : environ) (t : pyval) (seen : gset string)
    (c : Z) (progress log : list string) (h : string) :
  int_view t = None ->
  (h ∉ seen ->
   exists log',
     record fmt h (World e (Globals (Some t) (Some seen) (Some c)) progress log) =
     (Raised TypeError,
      World e (Globals (Some t) (Some (seen ∪ {[h]})) (Some (c + 1))) progress log')) /\
  (h ∈ seen ->
   exists log',
     record fmt h (World e (Globals (Some t) (Some seen) (Some c)) progress log) =
     (Returned tt, World e (Globals (Some t) (Some seen) (Some c)) progress log')).
Proof.
  intros Ht. split; intros Hin; eexists.
  - apply record_new_type_error; assumption.
  - apply record_seen. exact Hin.
Qed.

Lemma size_add_fresh (seen : gset string) (h : string) :
  h ∉ seen -> size (seen ∪ {[h]}) = S (size seen).
Proof.
  intros Hin. rewrite size_union by set_solver. rewrite size_singleton. lia.
Qed.

(** The counter and the seen set along a run from globals that are set and
    agree: they still agree at the end, and the progress file has gained one
    line per commit counted, short of one when the run ended in an exception. *)
Lemma run_counts e t ids : forall seen progress log,
  exists r seen' added log',
    run fmt ids (World e (Globals (Some t) (Some seen) (Some (Z.of_nat (size seen))))
                   progress log) =
    (r, World e (Globals (Some t) (Some seen') (Some (Z.of_nat (size seen'))))
          (progress ++ added) log') /\
    seen ⊆ seen' /\ seen' ⊆ seen ∪ list_to_set ids /\
    match r with
    | Returned _ =>
        seen' = seen ∪ list_to_set ids /\ (size seen' = size seen + length added)%nat
    | Raised _ => (size seen' = size seen + length added + 1)%nat
    end.
Proof.
  induction ids as [|h rest IH]; intros seen progress log.
  - exists (Returned tt), seen, [], log. rewrite app_nil_r. cbn [run length list_to_set].
    split; [reflexivity|]. split; [set_solver|]. split; [set_solver|].
    split; [set_solver | lia].
  - cbn [run]. unfold mbind at 1, M_bind at 1.
    destruct (record_cases e t seen (Z.of_nat (size seen)) progress log h)
      as (r & seen1 & c1 & added1 & log1 & -> & Hcase).
    assert (c1 = Z.of_nat (size seen1) /\ seen ⊆ seen1 /\ seen1 ⊆ seen ∪ {[h]} /\
            match r with
            | Returned _ => seen1 = seen ∪ {[h]} /\
                            (size seen1 = size seen + length added1)%nat
            | Raised _ => (size seen1 = size seen + length added1 + 1)%nat
            end) as (-> & Hsub1 & Hsub2 & Hr).
    { destruct Hcase as [(Hin & -> & -> & -> & ->) |
                         (Hin & -> & -> & [(tz & ts & _ & _ & -> & ->) |
                                           [(_ & -> & ->) | (_ & _ & -> & ->)]])];
        rewrite ?size_add_fresh by exact Hin; cbn [length];
        (split; [lia|]); (split; [set_solver|]); (split; [set_solver|]);
        try lia; (split; [set_solver | lia]). }
    destruct r as [[]|x].
    + destruct Hr as [-> Hsize].
      destruct (IH (seen ∪ {[h]}) (progress ++ added1) log1)
        as (r2 & seen2 & added2 & log2 & -> & Hs1 & Hs2 & Hr2).
      exists r2, seen2, (added1 ++ added2), log2. rewrite app_assoc.
      split; [reflexivity|]. split; [set_solver|]. split; [set_solver|].
      rewrite length_app. destruct r2 as [[]|x2].
      * destruct Hr2 as [-> Hsize2]. split; [set_solver | lia].
      * lia.
    + exists (Raised x), seen1, added1, log1.
      split; [reflexivity|]. split; [exact Hsub1|]. split; [set_solver | exact Hr].
Qed.

(** X4. Whatever the environment (stats file unreadable, progress file not
    writable, total not a number), after a run over at least one commit from
    a fresh process the counter equals the size of the seen set, the seen
    commits are among those visited, and the progress file has gained
    exactly one line per seen commit if the run returned, one less if it
    ended in an exception. *)
Theorem counter_matches_seen_set (e : environ) (progress log : list string)
    (h : string) (rest : list string) :
  exists r seen added log',
    run fmt (h :: rest) (start e progress log) =
    (r, World e (Globals (Some (stats_total (STATS_FILE e))) (Some seen)
                   (Some (Z.of_nat (size seen))))
          (progress ++ added) log') /\
    seen ⊆ list_to_set (h :: rest) /\
    match r with
    | Returned _ => seen = list_to_set (h :: rest) /\ length added = size seen
    | Raised _ => S (length added) = size seen
    end.
Proof.
  rewrite run_fresh.
  destruct (run_counts e (stats_total (STATS_FILE e)) (h :: rest) ∅ progress log)
    as (r & seen & added & log' & Hrun & _ & Hsub & Hr).
  change 0 with (Z.of_nat (size (∅ : gset string))). rewrite Hrun.
  exists r, seen, added, log'. split; [reflexivity|]. split; [set_solver|].
  rewrite size_empty in Hr. destruct r as [[]|x].
  - destruct Hr as [-> Hsize]. split; [set_solver | lia].
  - lia.
Qed.

Lemma record_same_ledger h w1 w2 :
  same_ledger w1 w2 ->
  (record fmt h w1).1 = (record fmt h w2).1 /\
  same_ledger (record fmt h w1).2 (record fmt h w2).2.
Proof.
  destruct w1 as [e1 [ot os oc] p l1], w2 as [e2 g2 p2 l2].
  intros (Hs & Hp & Hg & Hpf).
  cbn [env glob progress_file STATS_FILE PROGRESS_FILE] in Hs, Hp, Hg, Hpf. subst g2 p2.
  rewrite (record_init e1), (record_init e2), Hs.
  set (t := default (stats_total (STATS_FILE e2)) ot).
  set (seen := default ∅ os). set (c := default 0 oc).
  unfold same_ledger.
  destruct (decide (h ∈ seen)) as [Hin|Hin].
  { rewrite !record_seen by exact Hin. cbn [fst snd env glob progress_file callback_log total_commits seen_hashes processed_count STATS_FILE PROGRESS_FILE CALLBACK_LOG].
    repeat split; assumption. }
  destruct (int_view t) as [[tz ts]|] eqn:Hv.
  - destruct (PROGRESS_FILE e1) eqn:Hpe; symmetry in Hp.
    + rewrite !(record_new fmt _ t tz ts) by assumption. cbn [fst snd env glob progress_file callback_log total_commits seen_hashes processed_count STATS_FILE PROGRESS_FILE CALLBACK_LOG].
      repeat split; congruence.
    + rewrite !(record_new_os_error _ t tz ts) by assumption. cbn [fst snd env glob progress_file callback_log total_commits seen_hashes processed_count STATS_FILE PROGRESS_FILE CALLBACK_LOG].
      repeat split; congruence.
  - rewrite !record_new_type_error by assumption. cbn [fst snd env glob progress_file callback_log total_commits seen_hashes processed_count STATS_FILE PROGRESS_FILE CALLBACK_LOG].
    repeat split; congruence.
Qed.

(** X5. Logging never affects the ledger: two runs that differ only in the
    callback log and in whether it can be written end with the same outcome,
    the same globals and the same progress file. *)
Theorem logging_never_affects_ledger (ids : list string) (w1 w2 : world) :
  same_ledger w1 w2 ->
  (run fmt ids w1).1 = (run fmt ids w2).1 /\
  same_ledger (run fmt ids w1).2 (run fmt ids w2).2.
Proof.
  revert w1 w2; induction ids as [|h rest IH]; intros w1 w2 Hsame.
  - split; [reflexivity | exact Hsame].
  - cbn [run]. unfold mbind, M_bind.
    destruct (record_same_ledger h w1 w2 Hsame) as [Hr Hw].
    destruct (record fmt h w1) as [[[]|x1] w1'], (record fmt h w2) as [[[]|x2] w2'];
      cbn [fst snd] in *; try discriminate.
    + apply IH. exact Hw.
    + split; [exact Hr | exact Hw].
Qed.

(** X19. Deduplication is per process: the seen set is not rebuilt from the
    progress file, so a second process run over the same commits appends the
    same lines once more. *)
Theorem rerun_appends_again (e : environ) (progress log : list string) (ids : list string)
    (tz : Z) (ts : string) :
  PROGRESS_FILE e = true ->
  int_view (stats_total (STATS_FILE e)) = Some (tz, ts) ->
  exists w1 w2 lines,
    run fmt ids (start e progress log) = (Returned tt, w1) /\
    progress_file w1 = progress ++ lines /\
    length lines = length (first_visits ∅ ids) /\
    run fmt ids (start e (progress_file w1) (callback_log w1)) = (Returned tt, w2) /\
    progress_file w2 = progress ++ lines ++ lines.
Proof.
  intros Hp Ht. destruct ids as [|h rest].
  - exists (start e progress log), (start e progress log), [].
    cbn [app]. rewrite app_nil_r. repeat split.
  - rewrite run_fresh.
    destruct (run_initialised fmt e _ tz ts (h :: rest) ∅ 0 progress log Ht Hp) as [log1 ->].
    match goal with |- context [imap ?f ?l] => set (lines := imap f l) end.
    destruct (run_initialised fmt e _ tz ts (h :: rest) ∅ 0 (progress ++ lines) log1 Ht Hp)
      as [log2 Hrun2]. fold lines in Hrun2.
    eexists. eexists. exists lines.
    split; [reflexivity|]. cbn [progress_file callback_log]. split; [reflexivity|].
    split; [subst lines; apply length_imap|].
    rewrite run_fresh, Hrun2.
    split; [reflexivity|]. cbn [progress_file]. rewrite <- app_assoc. reflexivity.
Qed.

(** X17. The progress file and the callback log are only appended to: a
    call keeps what they held, adds at most one line to the progress file
    and at most two messages to the log, and leaves the environment alone. *)
Theorem record_appends_only (w : world) (h : string) :
  let r := record fmt h w in
  env r.2 = env w /\
  (exists added, progress_file r.2 = progress_file w ++ added /\ (length added <= 1)%nat) /\
  (exists msgs, callback_log r.2 = callback_log w ++ msgs /\ (length msgs <= 2)%nat).
Proof.
  intros r. subst r. destruct w as [e [ot os oc] progress log].
  rewrite record_init.
  set (t := default (stats_total (STATS_FILE e)) ot).
  set (seen := default ∅ os). set (c := default 0 oc).
  assert (forall msgs : list string, (length msgs <= 2)%nat ->
            exists msgs', logged e log msgs = log ++ msgs' /\ (length msgs' <= 2)%nat) as Hlog.
  { intros msgs Hlen. unfold logged. destruct (CALLBACK_LOG e).
    - exists msgs. split; [reflexivity | exact Hlen].
    - exists []. rewrite app_nil_r. split; [reflexivity | cbn; lia]. }
  destruct (decide (h ∈ seen)) as [Hin|Hin].
  { rewrite record_seen by exact Hin. cbn [fst snd env progress_file callback_log].
    split; [reflexivity|]. split; [exists []; rewrite app_nil_r; split; [reflexivity|cbn; lia]|].
    apply Hlog. cbn. lia. }
  destruct (int_view t) as [[tz ts]|] eqn:Hv.
  - destruct (PROGRESS_FILE e) eqn:Hp.
    + rewrite (record_new fmt e t tz ts) by assumption.
      cbn [fst snd env progress_file callback_log].
      split; [reflexivity|]. split; [eexists; split; [reflexivity | cbn; lia]|].
      apply Hlog. cbn. lia.
    + rewrite (record_new_os_error e t tz ts) by assumption.
      cbn [fst snd env progress_file callback_log].
      split; [reflexivity|].
      split; [exists []; rewrite app_nil_r; split; [reflexivity|cbn; lia]|].
      apply Hlog. cbn. lia.
  - rewrite record_new_type_error by assumption.
    cbn [fst snd env progress_file callback_log].
    split; [reflexivity|].
    split; [exists []; rewrite app_nil_r; split; [reflexivity|cbn; lia]|].
    apply Hlog. cbn. lia.
Qed.

End CommitMore.

(** ** message.py: what is logged, how much the message grows *)

Section ReplaceLength.
Variables (o n : byte) (otl ntl : bytes).
Let old : bytes := o :: otl.
Let new : bytes := n :: ntl.
Hypothesis old_unbordered : o ∉ otl.

Lemma count_occurrences_cons c t :
  count_occurrences old (c :: t) =
  ((if starts_with old (c :: t) then 1 else 0) + count_occurrences old t)%nat.
Proof. reflexivity. Qed.

Lemma count_occurrences_skip u r :
  o ∉ u -> count_occurrences old (u ++ r) = count_occurrences old r.
Proof.
  intros Hu. induction u as [|x u IH]; [reflexivity|].
  rewrite <- app_comm_cons, count_occurrences_cons, IH by set_solver.
  destruct (starts_with old (x :: u ++ r)) eqn:E; [|reflexivity].
  apply starts_with_cons in E as [<- _]. set_solver.
Qed.

Lemma replace_scan_length s :
  (length (replace_scan old new s) + count_occurrences old s * length old =
   length s + count_occurrences old s * length new)%nat.
Proof.
  induction s as [s IH] using (induction_ltof1 _ (@length byte)). unfold ltof in IH.
  destruct s as [|c t]; [reflexivity|].
  unfold old, new. rewrite replace_scan_cons, count_occurrences_cons. fold old new.
  destruct (starts_with old (c :: t)) eqn:E.
  - apply starts_with_spec in E as [r Hr]. injection Hr as -> ->.
    rewrite drop_app_length, (count_occurrences_skip otl r old_unbordered).
    specialize (IH r ltac:(cbn; rewrite length_app; lia)).
    rewrite length_app. subst old. cbn [length] in *. rewrite length_app. lia.
  - specialize (IH t ltac:(cbn; lia)). cbn [length]. lia.
Qed.

End ReplaceLength.

Lemma redact_changes m : occurs_in Message.SECRET m -> Message.redact m <> m.
Proof.
  intros Hocc Heq. apply (redact_clean m). rewrite Heq. exact Hocc.
Qed.

(** X6. The callback logs that it processes a message, then either that it
    found [SECRET] and redacted, or that it found none; it returns a message
    different from the one it was given exactly in the first case. *)
Theorem message_callback_logs (m : bytes) :
  (occurs_in Message.SECRET m ->
   Message.callback m =
     (Message.redact m, [Message.log_processing; Message.log_found; Message.log_redacted]) /\
   Message.redact m <> m) /\
  (~ occurs_in Message.SECRET m ->
   Message.callback m = (m, [Message.log_processing; Message.log_not_found])).
Proof.
  split.
  - intros Hocc. split; [|exact (redact_changes m Hocc)].
    unfold Message.redact, Message.callback.
    apply bytes_contains_spec in Hocc. rewrite Hocc. reflexivity.
  - intros Hno. unfold Message.callback.
    apply bytes_contains_false in Hno. rewrite Hno. reflexivity.
Qed.

(** X7. Redaction lengthens the message by four bytes for each occurrence
    of [SECRET] (six bytes replaced by ten) and never shortens it. *)
Theorem redact_length (m : bytes) :
  length (Message.redact m)
  = (length m + 4 * count_occurrences Message.SECRET m)%nat.
Proof.
  rewrite redact_replace.
  pose proof (replace_scan_length Byte.x53 Byte.x5b (bytes_of "ECRET")
                (bytes_of "REDACTED]") secret_unbordered m) as H.
  change (Byte.x5b :: bytes_of "REDACTED]") with Message.REDACTED in H.
  change (Byte.x53 :: bytes_of "ECRET") with Message.SECRET in H.
  change (length Message.SECRET) with 6%nat in H.
  change (length Message.REDACTED) with 10%nat in H. lia.
Qed.

(** ** file-info.py: the set of findings *)

Section FindingsSet.
Import FileInfo.

Lemma py_eq_refl v : hashable v = true -> py_eq v v = true.
Proof.
  destruct v as [|[]|z|s| |]; cbn [py_eq int_view hashable]; try discriminate; intros _;
    first [reflexivity | apply Z.eqb_refl | apply bool_decide_eq_true_2; reflexivity].
Qed.

Lemma py_eq_sym v1 v2 : py_eq v1 v2 = py_eq v2 v1.
Proof.
  destruct v1 as [|[]|z1|s1|l1|d1], v2 as [|[]|z2|s2|l2|d2]; cbn [py_eq int_view];
    try reflexivity; try apply Z.eqb_sym.
  apply eq_true_iff_eq. rewrite !bool_decide_eq_true. split; congruence.
Qed.

Lemma key_eq_sym k1 k2 : key_eq k1 k2 = key_eq k2 k1.
Proof. unfold key_eq. rewrite (py_eq_sym k1.1), (py_eq_sym k1.2). reflexivity. Qed.

Lemma key_eq_refl f l : hashable f && hashable l = true -> key_eq (f, l) (f, l) = true.
Proof.
  intros Hh. apply andb_true_iff in Hh as [Hf Hl].
  unfold key_eq. cbn [fst snd]. rewrite (py_eq_refl f Hf), (py_eq_refl l Hl). reflexivity.
Qed.

Lemma existsb_false_elem (k : key) (s : list key) e :
  existsb (key_eq k) s = false -> e ∈ s -> key_eq k e = false.
Proof.
  intros Hex He. destruct (key_eq k e) eqn:E; [|reflexivity].
  rewrite <- Hex. symmetry. apply existsb_exists. exists e.
  split; [apply list_elem_of_In; exact He | exact E].
Qed.

Lemma set_add_distinct k s : distinct_keys s -> distinct_keys (set_add k s).
Proof.
  intros Hs. unfold set_add. destruct (existsb (key_eq k) s) eqn:Hex; [exact Hs|].
  intros i j k1 k2 Hi Hj Hne.
  destruct (decide (i < length s)%nat) as [Hil|Hil],
           (decide (j < length s)%nat) as [Hjl|Hjl].
  - rewrite lookup_app_l in Hi, Hj by lia. exact (Hs i j k1 k2 Hi Hj Hne).
  - rewrite lookup_app_l in Hi by lia. rewrite lookup_app_r in Hj by lia.
    apply list_lookup_singleton_Some in Hj as [_ <-]. rewrite key_eq_sym.
    apply (existsb_false_elem _ _ _ Hex). apply list_elem_of_lookup. exists i. exact Hi.
  - rewrite lookup_app_l in Hj by lia. rewrite lookup_app_r in Hi by lia.
    apply list_lookup_singleton_Some in Hi as [_ <-].
    apply (existsb_false_elem _ _ _ Hex). apply list_elem_of_lookup. exists j. exact Hj.
  - rewrite lookup_app_r in Hi, Hj by lia.
    apply list_lookup_singleton_Some in Hi as [Hi _].
    apply list_lookup_singleton_Some in Hj as [Hj _]. lia.
Qed.

Lemma set_add_elem k s :
  (forall e, e ∈ s -> e ∈ set_add k s) /\
  (forall e, e ∈ set_add k s -> e ∈ s \/ e = k) /\
  (length (set_add k s) <= S (length s))%nat /\
  (key_eq k k = true -> exists e, e ∈ set_add k s /\ key_eq k e = true).
Proof.
  unfold set_add. destruct (existsb (key_eq k) s) eqn:Hex.
  - split; [auto|]. split; [auto|]. split; [lia|]. intros _.
    apply existsb_exists in Hex as (e & He & Hk). exists e.
    split; [apply list_elem_of_In; exact He | exact Hk].
  - split; [set_solver|]. split; [set_solver|].
    split; [rewrite length_app; cbn; lia|]. intros Hk. exists k. split; [set_solver | exact Hk].
Qed.

Lemma add_findings_set entries : forall acc bad,
  add_findings entries acc = Returned bad ->
  distinct_keys acc ->
  distinct_keys bad /\
  (forall k, k ∈ acc -> k ∈ bad) /\
  (forall e file start_line,
     e ∈ entries -> py_getitem e (text_of "File") = Returned file ->
     py_getitem e (text_of "StartLine") = Returned start_line ->
     exists k, k ∈ bad /\ key_eq (file, start_line) k = true) /\
  (forall k, k ∈ bad ->
     k ∈ acc \/
     exists e, e ∈ entries /\ py_getitem e (text_of "File") = Returned k.1 /\
               py_getitem e (text_of "StartLine") = Returned k.2) /\
  (length bad <= length acc + length entries)%nat.
Proof.
  induction entries as [|e rest IH]; intros acc bad.
  - intros [= <-] Hacc. split; [exact Hacc|]. split; [auto|].
    split; [intros ? ? ? He; apply elem_of_nil in He; contradiction|].
    split; [auto | cbn; lia].
  - cbn [add_findings].
    destruct (py_getitem e (text_of "File")) as [file|x] eqn:Ef; [|discriminate].
    destruct (py_getitem e (text_of "StartLine")) as [start_line|x] eqn:El; [|discriminate].
    destruct (hashable file && hashable start_line) eqn:Eh; [|discriminate].
    intros Hadd Hacc.
    destruct (IH _ _ Hadd (set_add_distinct (file, start_line) acc Hacc))
      as (Hd & Hkeep & Hrep & Hfrom & Hlen).
    destruct (set_add_elem (file, start_line) acc) as (Hin & Hout & Hl & Hself).
    split; [exact Hd|]. split; [auto|]. split; [|split].
    + intros e' f' l' He' Hf' Hl'. apply elem_of_cons in He' as [-> | He'].
      * rewrite Ef in Hf'. rewrite El in Hl'. injection Hf' as <-. injection Hl' as <-.
        destruct (Hself (key_eq_refl _ _ Eh)) as (k & Hk & Hkk).
        exists k. split; [apply Hkeep; exact Hk | exact Hkk].
      * exact (Hrep e' f' l' He' Hf' Hl').
    + intros k Hk. destruct (Hfrom k Hk) as [Hk' | (e' & He' & Hf' & Hl')].
      * destruct (Hout k Hk') as [Hacc' | ->]; [left; exact Hacc'|].
        right. exists e. split; [left | split; [exact Ef | exact El]].
      * right. exists e'. split; [right; exact He' | split; [exact Hf' | exact Hl']].
    + cbn [length]. lia.
Qed.

(** X8. The findings are kept as a set of (File, StartLine) tuples: the
    loaded collection holds no two equal tuples (as Python compares them,
    so [1] and [True] are one line), every entry of the file is represented
    by an equal tuple, every tuple comes from an entry, and the count logged
    is at most the number of entries. *)
Theorem findings_load_as_set (entries : list pyval) (bad : list key) :
  load_bad_lines (Parsed (PyList entries)) = Returned bad ->
  distinct_keys bad /\
  (forall e file start_line,
     e ∈ entries -> py_getitem e (text_of "File") = Returned file ->
     py_getitem e (text_of "StartLine") = Returned start_line ->
     exists k, k ∈ bad /\ key_eq (file, start_line) k = true) /\
  (forall k, k ∈ bad ->
     exists e, e ∈ entries /\ py_getitem e (text_of "File") = Returned k.1 /\
               py_getitem e (text_of "StartLine") = Returned k.2) /\
  (length bad <= length entries)%nat.
Proof.
  unfold load_bad_lines. cbn [load_json py_iter]. intros Hadd.
  assert (distinct_keys []) as Hnil by (intros i j k1 k2 Hi; discriminate).
  destruct (add_findings_set entries [] bad Hadd Hnil) as (Hd & _ & Hrep & Hfrom & Hlen).
  split; [exact Hd|]. split; [exact Hrep|]. split; [|exact Hlen].
  intros k Hk. destruct (Hfrom k Hk) as [Hk' | Hk']; [|exact Hk'].
  apply elem_of_nil in Hk'. contradiction.
Qed.

Lemma load_bad_lines_distinct src bad :
  load_bad_lines src = Returned bad -> distinct_keys bad.
Proof.
  unfold load_bad_lines. destruct (load_json src) as [v|]; [|discriminate].
  destruct (py_iter v) as [entries|]; [|discriminate]. intros Hadd.
  assert (distinct_keys []) as Hnil by (intros i j k1 k2 Hi; discriminate).
  exact (proj1 (add_findings_set entries [] bad Hadd Hnil)).
Qed.

Lemma distinct_keys_cons k rest :
  distinct_keys (k :: rest) ->
  distinct_keys rest /\ forall e, e ∈ rest -> key_eq k e = false.
Proof.
  intros Hd. split.
  - intros i j k1 k2 Hi Hj Hne. apply (Hd (S i) (S j)); [exact Hi | exact Hj | lia].
  - intros e He. apply list_elem_of_lookup in He as [j Hj].
    apply (Hd 0%nat (S j)); [reflexivity | exact Hj | lia].
Qed.

(** Two findings that blank the same line are equal as tuples. *)
Lemma line_of_key_eq decoded len k1 k2 i :
  line_of decoded len k1 = Some i -> line_of decoded len k2 = Some i -> key_eq k1 k2 = true.
Proof.
  unfold line_of, key_eq. destruct k1 as [f1 l1], k2 as [f2 l2]. cbn [fst snd].
  destruct f1 as [| | |s1| |]; cbn [py_eq_str]; try discriminate.
  destruct f2 as [| | |s2| |]; cbn [py_eq_str]; try discriminate.
  case_bool_decide as H1; [subst s1|discriminate].
  case_bool_decide as H2; [subst s2|discriminate].
  destruct (int_view l1) as [[n1 ?]|] eqn:E1; [|discriminate].
  destruct (int_view l2) as [[n2 ?]|] eqn:E2; [|discriminate].
  zbool; try discriminate. intros [= <-] [= Hn].
  assert (n1 = n2) as -> by lia.
  apply andb_true_iff. split; [apply bool_decide_eq_true_2; reflexivity|].
  destruct l1 as [|[]|z1| | |], l2 as [|[]|z2| | |]; cbn [int_view] in E1, E2;
    try discriminate; inversion E1; inversion E2; subst;
    cbn [py_eq int_view]; try reflexivity; try discriminate; apply Z.eqb_refl.
Qed.

Lemma omap_line_of_NoDup decoded len bad :
  distinct_keys bad -> NoDup (omap (line_of decoded len) bad).
Proof.
  induction bad as [|k rest IH]; intros Hd; [constructor|].
  apply distinct_keys_cons in Hd as [Hrest Hk]. cbn [omap list_omap].
  destruct (line_of decoded len k) as [i|] eqn:Ei; [|apply IH; exact Hrest].
  constructor; [|apply IH; exact Hrest].
  intros Hin. apply list_elem_of_omap in Hin as (e & He & Hi).
  specialize (Hk e He). rewrite (line_of_key_eq _ _ _ _ _ Ei Hi) in Hk. discriminate.
Qed.

Lemma removed_messages_length decoded len findings :
  length (removed_messages decoded len findings) = length (omap (line_of decoded len) findings).
Proof.
  unfold removed_messages. induction findings as [|k rest IH]; [reflexivity|].
  cbn [omap list_omap].
  destruct (line_of decoded len k) as [i|] eqn:Ei; [|exact IH].
  assert (is_Some (int_view k.2)) as [[n lnum_str] ->].
  { unfold line_of in Ei. destruct (py_eq_str k.1 decoded); [|discriminate].
    destruct (int_view k.2); [eexists; reflexivity | discriminate]. }
  cbn [length]. rewrite IH. reflexivity.
Qed.

(** The findings in range hit as many lines as there are named lines. *)
Lemma named_lines_length decoded len bad :
  distinct_keys bad ->
  length (omap (line_of decoded len) bad) = length (named_lines decoded bad len).
Proof.
  intros Hd. apply Permutation_length. apply NoDup_Permutation.
  - apply omap_line_of_NoDup. exact Hd.
  - unfold named_lines. apply NoDup_filter, NoDup_seq.
  - intros i. unfold named_lines. rewrite list_elem_of_filter, elem_of_seq, list_elem_of_omap.
    split.
    + intros (k & Hk & Hi). split.
      * apply existsb_exists. exists k. split; [apply list_elem_of_In; exact Hk|].
        apply bool_decide_eq_true_2. exact Hi.
      * pose proof (line_of_lt _ _ _ _ Hi). lia.
    + intros [Hex _]. apply existsb_exists in Hex as (k & Hk & Hi).
      exists k. split; [apply list_elem_of_In; exact Hk|].
      apply bool_decide_eq_true_1 in Hi. exact Hi.
Qed.

End FindingsSet.

(** ** file-info.py: exceptions, re-runs, iteration order, logging *)

Section FileInfoMore.
Import FileInfo.
Context `{Driver}.
Implicit Types (w : world) (lines : list text) (k : key).

Ltac norm_files El :=
  repeat (progress (cbn [env repository fetched inserted callback_log fst snd negb];
                    rewrite ?El)).

(** X9. A findings file that parses but is no list: an empty object and an
    empty string load as no findings at all, without an error, so that every
    entry is returned as it is and nothing is fetched; a non-empty object or
    string, a number, a boolean and [null] raise [TypeError]. *)
Theorem findings_file_not_a_list (set_order : list key -> list key) :
  (forall w filename mode blob,
     GITLEAKS_FILE (env w) = Parsed (PyDict []) \/ GITLEAKS_FILE (env w) = Parsed (PyStr []) ->
     exists log',
       callback set_order filename mode blob w =
       (Returned (filename, mode, blob),
        World (env w) (repository w) (fetched w) (inserted w) log')) /\
  (forall d, d <> [] -> load_bad_lines (Parsed (PyDict d)) = Raised TypeError) /\
  (forall s, s <> [] -> load_bad_lines (Parsed (PyStr s)) = Raised TypeError) /\
  (forall v, hashable v = true -> (forall s, v <> PyStr s) ->
             load_bad_lines (Parsed v) = Raised TypeError).
Proof.
  split; [|split; [|split]].
  - intros w filename mode blob Hsrc.
    assert (load_bad_lines (GITLEAKS_FILE (env w)) = Returned []) as Hload
      by (destruct Hsrc as [-> | ->]; reflexivity).
    rewrite (callback_no_secret set_order w filename mode blob [] Hload eq_refl).
    unfold logged. destruct w as [e r f i l]. cbn [env repository fetched inserted callback_log].
    destruct (CALLBACK_LOG e); eexists; reflexivity.
  - intros [|[k v] d] Hd; [contradiction | reflexivity].
  - intros [|c s] Hs; [contradiction | reflexivity].
  - intros [|b|z|s|l|d] Hh Hs; try reflexivity; try discriminate.
    exfalso. exact (Hs s eq_refl).
Qed.

(** The loop of lines 44-48 touches nothing but the log. *)
Lemma clean_lines_world decoded findings : forall lines m w,
  exists r msgs, clean_lines decoded findings lines m w = (r, logged w msgs).
Proof.
  induction findings as [|[f lnum] rest IH]; intros lines m w.
  - eexists; exists []. rewrite logged_nil. reflexivity.
  - cbn [clean_lines]. destruct (py_eq_str f decoded); [|apply IH].
    destruct (int_view lnum) as [[n lnum_str]|].
    + destruct ((0 <? n) && (n <=? Z.of_nat (length lines))); [|apply IH].
      unfold mbind, M_bind. rewrite log_callback_logged.
      destruct (IH (<[Z.to_nat (n - 1) := []]> lines) (m + 1)
                  (logged w [msg_removed lnum_str decoded])) as (r & msgs & ->).
      rewrite logged_app. eexists; eexists; reflexivity.
    + exists (Raised TypeError), []. rewrite logged_nil. reflexivity.
Qed.

Lemma clean_lines_raises decoded findings : forall lines m w,
  Exists (unordered_line decoded) findings ->
  exists msgs, clean_lines decoded findings lines m w = (Raised TypeError, logged w msgs).
Proof.
  induction findings as [|[f lnum] rest IH]; intros lines m w Hbad; [inversion Hbad|].
  cbn [clean_lines].
  destruct (py_eq_str f decoded) eqn:Ef.
  - destruct (int_view lnum) as [[n lnum_str]|] eqn:Ev.
    + apply Exists_cons in Hbad as [[_ Hbad] | Hbad];
        [cbn [snd] in Hbad; congruence|].
      destruct ((0 <? n) && (n <=? Z.of_nat (length lines))); [|apply IH; exact Hbad].
      unfold mbind, M_bind. rewrite log_callback_logged.
      destruct (IH (<[Z.to_nat (n - 1) := []]> lines) (m + 1)
                  (logged w [msg_removed lnum_str decoded]) Hbad) as (msgs & ->).
      rewrite logged_app. eexists; reflexivity.
    + exists []. rewrite logged_nil. reflexivity.
  - apply Exists_cons in Hbad as [[Hbad _] | Hbad];
      [cbn [fst] in Hbad; congruence | apply IH; exact Hbad].
Qed.

(** X10. When a finding for the file has a line number that is no number
    (a string, [null]), the comparison of line 45 raises [TypeError]: the
    blob has been fetched, nothing is inserted and no entry is returned,
    whatever the other findings and the order of iteration. *)
Theorem non_integer_line_raises (set_order : list key -> list key)
    (w : world) (filename mode : bytes) (blob : blob_id) (bad : list key) :
  load_bad_lines (GITLEAKS_FILE (env w)) = Returned bad ->
  Exists (unordered_line (utf8_decode filename)) bad ->
  set_order bad ≡ₚ bad ->
  exists log',
    callback set_order filename mode blob w =
    (Raised TypeError,
     World (env w) (repository w) (fetched w ++ [blob]) (inserted w) log').
Proof.
  intros Hload Hbad Hperm.
  assert (has_secret (utf8_decode filename) bad = true) as Hex.
  { apply Exists_exists in Hbad as (k & Hk & Hf & _). apply existsb_exists.
    exists k. split; [apply list_elem_of_In; exact Hk | exact Hf]. }
  rewrite <- Hperm in Hbad.
  destruct w as [e r f i l]. cbn [env repository fetched inserted callback_log] in *.
  unfold callback, mbind, M_bind, get_world, lift_outcome, log_callback, modify_world,
    fetch, insert, mret, M_ret.
  cbn [env repository fetched inserted callback_log]. rewrite Hload, Hex. cbn [negb].
  destruct (CALLBACK_LOG e) eqn:El; norm_files El;
    match goal with |- context [clean_lines ?d ?o ?ls ?m ?w0] =>
      destruct (clean_lines_raises d o ls m w0 Hbad) as (msgs & ->) end;
    unfold logged; norm_files El; eexists; reflexivity.
Qed.

Lemma blanked_idem decoded bad lines :
  blanked decoded bad (blanked decoded bad lines) = blanked decoded bad lines.
Proof.
  apply list_eq. intros i. rewrite !blanked_lookup, blanked_length.
  destruct (lines !! i); cbn [fmap option_fmap option_map]; [|reflexivity].
  destruct (existsb _ bad); reflexivity.
Qed.

Lemma blanked_empty_line decoded bad : blanked decoded bad [[]] = [[]].
Proof.
  apply list_eq. intros [|i]; rewrite blanked_lookup; cbn; [|reflexivity].
  destruct (existsb _ bad); reflexivity.
Qed.

(** Reading back what was written and blanking again gives the same text to
    write. *)
Lemma rescrub_same_text decoded bad contents encoded :
  let final := blanked decoded bad (splitlines (utf8_decode contents)) in
  utf8_encode (join_lines final) = Returned encoded ->
  join_lines (blanked decoded bad (splitlines (utf8_decode (encoded ++ bytes_of LF))))
  = join_lines final.
Proof.
  intros final Henc.
  destruct (decide (splitlines (utf8_decode contents) = [])) as [El|Hne].
  - subst final. rewrite El in Henc |- *. cbn in Henc. injection Henc as <-.
    change (splitlines (utf8_decode ([] ++ bytes_of LF))) with [[] : text].
    rewrite blanked_empty_line. reflexivity.
  - rewrite (written_lines_read_back final encoded Henc).
    + subst final. rewrite blanked_idem. reflexivity.
    + intros Hnil. apply Hne. apply length_zero_iff_nil.
      rewrite <- (blanked_length decoded bad). apply length_zero_iff_nil. exact Hnil.
    + intros l c Hl Hc. exact (proj2 (blanked_splitlines_elem _ _ _ _ _ Hl Hc)).
Qed.

(** X11. Scrubbing is idempotent on contents: when the driver hands back
    what was inserted, running the callback on the blob it has just written
    inserts the same contents again. *)
Theorem scrub_is_idempotent (set_order : list key -> list key)
    (w : world) (filename mode : bytes) (blob : blob_id) (bad : list key) :
  (forall r c,
     get_contents_by_identifier (insert_file_with_contents r c).2
       (insert_file_with_contents r c).1 = c) ->
  load_bad_lines (GITLEAKS_FILE (env w)) = Returned bad ->
  has_secret (utf8_decode filename) bad = true ->
  comparable (utf8_decode filename) bad ->
  set_order bad ≡ₚ bad ->
  exists contents id1 w1 id2 w2,
    callback set_order filename mode blob w = (Returned (filename, mode, id1), w1) /\
    inserted w1 = inserted w ++ [contents] /\
    callback set_order filename mode id1 w1 = (Returned (filename, mode, id2), w2) /\
    inserted w2 = inserted w1 ++ [contents].
Proof.
  intros Hlaw Hload Hex Hnum Hperm.
  destruct (callback_scrub set_order w filename mode blob bad Hload Hex Hnum Hperm)
    as (encoded & Henc & Hcall).
  cbv zeta in Hcall.
  set (new_contents := encoded ++ bytes_of LF) in *.
  match type of Hcall with _ = (Returned (_, _, ?i), ?w0) =>
    set (id1 := i) in *; set (w1 := w0) in * end.
  destruct (callback_scrub set_order w1 filename mode id1 bad Hload Hex Hnum Hperm)
    as (encoded2 & Henc2 & Hcall2).
  cbv zeta in Hcall2.
  assert (encoded2 = encoded) as ->.
  { subst w1 id1. cbn [repository] in Henc2. rewrite Hlaw in Henc2.
    subst new_contents. rewrite (rescrub_same_text _ _ _ _ Henc) in Henc2. congruence. }
  exists new_contents, id1, w1. eexists. eexists.
  split; [exact Hcall|]. split; [reflexivity|]. split; [exact Hcall2 | reflexivity].
Qed.

(** X12. What is written is well-formed UTF-8 whatever was read: decoding
    it drops nothing.  So a blob that is not well-formed UTF-8 (a binary
    file) and has a finding is always rewritten to different contents. *)
Theorem scrub_writes_valid_utf8 (set_order : list key -> list key)
    (w : world) (filename mode : bytes) (blob : blob_id) (bad : list key) :
  let original := get_contents_by_identifier (repository w) blob in
  load_bad_lines (GITLEAKS_FILE (env w)) = Returned bad ->
  has_secret (utf8_decode filename) bad = true ->
  comparable (utf8_decode filename) bad ->
  set_order bad ≡ₚ bad ->
  exists contents new_id w',
    callback set_order filename mode blob w = (Returned (filename, mode, new_id), w') /\
    inserted w' = inserted w ++ [contents] /\
    utf8_encode (utf8_decode contents) = Returned contents /\
    (utf8_encode (utf8_decode original) <> Returned original -> contents <> original).
Proof.
  intros original Hload Hex Hnum Hperm.
  destruct (callback_scrub set_order w filename mode blob bad Hload Hex Hnum Hperm)
    as (encoded & Henc & Hcall).
  cbv zeta in Hcall. exists (encoded ++ bytes_of LF). eexists. eexists.
  split; [exact Hcall|]. split; [reflexivity|].
  match type of Henc with utf8_encode ?t = _ =>
    assert (utf8_encode (t ++ [0x0A]) = Returned (encoded ++ bytes_of LF)) as Hfull
      by (apply utf8_encode_app; exists encoded, (bytes_of LF);
          split; [exact Henc | split; reflexivity]) end.
  assert (utf8_encode (utf8_decode (encoded ++ bytes_of LF))
          = Returned (encoded ++ bytes_of LF)) as Hvalid
    by (rewrite (utf8_decode_encode _ _ Hfull); exact Hfull).
  split; [exact Hvalid|]. intros Hbin Heq. apply Hbin. rewrite <- Heq. exact Hvalid.
Qed.

Lemma removed_messages_perm decoded len o1 o2 :
  o1 ≡ₚ o2 -> removed_messages decoded len o1 ≡ₚ removed_messages decoded len o2.
Proof. intros Hp. unfold removed_messages. rewrite Hp. reflexivity. Qed.

(** X13. The order in which the set of findings is iterated does not
    matter: for any two orders the callback gives the same outcome, leaves
    the same repository and the same fetches and inserts, and logs the same
    messages, up to their order. *)
Theorem iteration_order_irrelevant (order1 order2 : list key -> list key)
    (w : world) (filename mode : bytes) (blob : blob_id) (bad : list key) :
  load_bad_lines (GITLEAKS_FILE (env w)) = Returned bad ->
  comparable (utf8_decode filename) bad ->
  order1 bad ≡ₚ bad -> order2 bad ≡ₚ bad ->
  let r1 := callback order1 filename mode blob w in
  let r2 := callback order2 filename mode blob w in
  r1.1 = r2.1 /\ repository r1.2 = repository r2.2 /\ fetched r1.2 = fetched r2.2 /\
  inserted r1.2 = inserted r2.2 /\ callback_log r1.2 ≡ₚ callback_log r2.2.
Proof.
  intros Hload Hnum Hp1 Hp2 r1 r2. subst r1 r2.
  destruct (has_secret (utf8_decode filename) bad) eqn:Hex.
  - destruct (callback_scrub order1 w filename mode blob bad Hload Hex Hnum Hp1)
      as (enc1 & Henc1 & ->).
    destruct (callback_scrub order2 w filename mode blob bad Hload Hex Hnum Hp2)
      as (enc2 & Henc2 & ->).
    assert (enc2 = enc1) as -> by congruence.
    cbn [fst snd repository fetched inserted callback_log].
    repeat (split; [reflexivity|]).
    match goal with |- context [removed_messages ?d ?n (order1 bad)] =>
      pose proof (removed_messages_perm d n (order1 bad) (order2 bad)
                    ltac:(rewrite Hp1, Hp2; reflexivity)) as Hmsgs end.
    rewrite (Permutation_length Hmsgs).
    unfold logged. destruct (CALLBACK_LOG (env w)); cbn [callback_log]; [|reflexivity].
    rewrite Hmsgs. reflexivity.
  - rewrite !(callback_no_secret _ w filename mode blob bad Hload Hex).
    repeat split; reflexivity.
Qed.

Lemma same_files_logged w1 w2 m1 m2 :
  same_files w1 w2 -> same_files (logged w1 m1) (logged w2 m2).
Proof.
  unfold same_files, logged.
  destruct (CALLBACK_LOG (env w1)), (CALLBACK_LOG (env w2)); cbn; tauto.
Qed.

Lemma clean_lines_outcome decoded findings : forall lines m w1 w2,
  (clean_lines decoded findings lines m w1).1 = (clean_lines decoded findings lines m w2).1.
Proof.
  induction findings as [|[f lnum] rest IH]; intros lines m w1 w2; [reflexivity|].
  cbn [clean_lines]. destruct (py_eq_str f decoded); [|apply IH].
  destruct (int_view lnum) as [[n lnum_str]|]; [|reflexivity].
  destruct ((0 <? n) && (n <=? Z.of_nat (length lines))); [|apply IH].
  unfold mbind, M_bind. rewrite !log_callback_logged. apply IH.
Qed.

(** The callback as a cascade of its steps. *)
Lemma callback_steps (set_order : list key -> list key) w filename mode blob :
  callback set_order filename mode blob w =
  match load_bad_lines (GITLEAKS_FILE (env w)) with
  | Raised x => (Raised x, w)
  | Returned bad =>
      let decoded := utf8_decode filename in
      let w0 := logged (logged w [msg_loaded (length bad)]) [msg_processing decoded] in
      if negb (has_secret decoded bad)
      then (Returned (filename, mode, blob), logged w0 [msg_no_secrets decoded])
      else
        let w1 := logged w0 [msg_found decoded] in
        let lines := splitlines (utf8_decode (get_contents_by_identifier (repository w1) blob)) in
        match clean_lines decoded (set_order bad) lines 0
                (World (env w1) (repository w1) (fetched w1 ++ [blob]) (inserted w1)
                   (callback_log w1)) with
        | (Raised x, w2) => (Raised x, w2)
        | (Returned (final, n), w2) =>
            match utf8_encode (join_lines final) with
            | Raised x => (Raised x, w2)
            | Returned encoded =>
                let new_contents := encoded ++ bytes_of LF in
                let ins := insert_file_with_contents (repository w2) new_contents in
                (Returned (filename, mode, ins.1),
                 logged (World (env w2) ins.2 (fetched w2) (inserted w2 ++ [new_contents])
                           (callback_log w2))
                   [msg_modified n decoded (length lines)])
            end
        end
  end.
Proof.
  unfold callback, mbind, M_bind, get_world, lift_outcome, fetch, insert, mret, M_ret.
  destruct (load_bad_lines (GITLEAKS_FILE (env w))) as [bad|x]; [|reflexivity].
  rewrite !log_callback_logged. cbv zeta.
  destruct (negb (has_secret (utf8_decode filename) bad)); [reflexivity|].
  rewrite !log_callback_logged.
  destruct (clean_lines _ _ _ _ _) as [[[final n]|x] w2]; [|reflexivity].
  destruct (utf8_encode (join_lines final)) as [encoded|x]; [|reflexivity].
  destruct (insert_file_with_contents (repository w2) (encoded ++ bytes_of LF)) as [id r'].
  reflexivity.
Qed.

(** X14. Logging never affects scrubbing: two calls that differ only in the
    callback log and in whether it can be written give the same outcome and
    leave the same repository, fetches and inserts. *)
Theorem logging_never_affects_scrubbing (set_order : list key -> list key)
    (w1 w2 : world) (filename mode : bytes) (blob : blob_id) :
  same_files w1 w2 ->
  (callback set_order filename mode blob w1).1 = (callback set_order filename mode blob w2).1 /\
  same_files (callback set_order filename mode blob w1).2
    (callback set_order filename mode blob w2).2.
Proof.
  intros Hsame. pose proof Hsame as (Hsrc & _).
  rewrite !callback_steps, Hsrc.
  destruct (load_bad_lines (GITLEAKS_FILE (env w2))) as [bad|x];
    [|split; [reflexivity | exact Hsame]].
  cbv zeta. set (decoded := utf8_decode filename).
  destruct (negb (has_secret decoded bad)).
  { split; [reflexivity | repeat apply same_files_logged; exact Hsame]. }
  set (v1 := logged (logged (logged w1 _) _) _).
  set (v2 := logged (logged (logged w2 _) _) _).
  assert (same_files v1 v2) as (Hs' & Hr' & Hf' & Hi')
    by (subst v1 v2; repeat apply same_files_logged; exact Hsame).
  rewrite Hr', Hf', Hi'.
  set (lines := splitlines (utf8_decode (get_contents_by_identifier (repository v2) blob))).
  set (u1 := World (env v1) _ _ _ _). set (u2 := World (env v2) _ _ _ _).
  assert (same_files u1 u2) as Hu by (subst u1 u2; repeat split; assumption).
  pose proof (clean_lines_outcome decoded (set_order bad) lines 0 u1 u2) as Hout.
  destruct (clean_lines_world decoded (set_order bad) lines 0 u1) as (r1 & m1 & E1).
  destruct (clean_lines_world decoded (set_order bad) lines 0 u2) as (r2 & m2 & E2).
  rewrite E1, E2 in Hout |- *. cbn [fst] in Hout. subst r2.
  pose proof (same_files_logged u1 u2 m1 m2 Hu) as Hu'.
  destruct r1 as [[final n]|x]; [|split; [reflexivity | exact Hu']].
  destruct (utf8_encode (join_lines final)) as [encoded|x];
    [|split; [reflexivity | exact Hu']].
  destruct Hu' as (Hs2 & Hr2 & Hf2 & Hi2). rewrite Hr2, Hf2, Hi2.
  split; [reflexivity|]. apply same_files_logged. repeat split; assumption.
Qed.

(** X15. The count of modified lines that the loop of lines 43-48 returns
    (and the summary message reports) is the number of distinct lines that
    the findings name, since equal findings were merged in the set; the
    buffer it returns has exactly these lines blanked. *)
Theorem lines_modified_counts_lines (set_order : list key -> list key)
    (src : json_source) (bad : list key) (decoded : text) (lines : list text) (w : world) :
  load_bad_lines src = Returned bad ->
  comparable decoded bad ->
  set_order bad ≡ₚ bad ->
  (clean_lines decoded (set_order bad) lines 0 w).1 =
  Returned (blanked decoded bad lines,
            Z.of_nat (length (named_lines decoded bad (length lines)))).
Proof.
  intros Hload Hnum Hperm. unfold comparable in Hnum. rewrite Forall_forall in Hnum.
  rewrite clean_lines_spec by (intros k Hk; apply Hnum; rewrite <- Hperm; exact Hk).
  cbn [fst]. rewrite (blanked_order decoded (set_order bad) bad)
    by (intros k; rewrite Hperm; reflexivity).
  rewrite removed_messages_length, Hperm.
  rewrite (named_lines_length decoded (length lines) bad (load_bad_lines_distinct _ _ Hload)).
  rewrite Z.add_0_l. reflexivity.
Qed.

Lemma logged_fields w msgs :
  env (logged w msgs) = env w /\ repository (logged w msgs) = repository w /\
  fetched (logged w msgs) = fetched w /\ inserted (logged w msgs) = inserted w.
Proof. unfold logged. destruct (CALLBACK_LOG (env w)); repeat split. Qed.

(** X16. What a call can do, whatever the findings file and the blob: it
    leaves the environment alone; either it fetches nothing, inserts
    nothing and returns the entry it was given (or raises), or it fetches the
    entry's blob, once, and then either raises without inserting or inserts
    one blob and returns the entry with the identifier of that blob. *)
Theorem callback_effects (set_order : list key -> list key)
    (w : world) (filename mode : bytes) (blob : blob_id) :
  let r := callback set_order filename mode blob w in
  env r.2 = env w /\
  ((fetched r.2 = fetched w /\ inserted r.2 = inserted w /\ repository r.2 = repository w /\
    (r.1 = Returned (filename, mode, blob) \/ exists x, r.1 = Raised x)) \/
   (fetched r.2 = fetched w ++ [blob] /\
    ((inserted r.2 = inserted w /\ repository r.2 = repository w /\ exists x, r.1 = Raised x) \/
     (exists contents,
        let ins := insert_file_with_contents (repository w) contents in
        inserted r.2 = inserted w ++ [contents] /\ repository r.2 = ins.2 /\
        r.1 = Returned (filename, mode, ins.1))))).
Proof.
  intros r. subst r. rewrite callback_steps.
  destruct (load_bad_lines (GITLEAKS_FILE (env w))) as [bad|x].
  2: { split; [reflexivity|]. left. repeat split. right. eexists. reflexivity. }
  cbv zeta. set (decoded := utf8_decode filename).
  destruct (negb (has_secret decoded bad)).
  { cbn [fst snd]. destruct (logged_fields (logged (logged w [msg_loaded (length bad)])
                                              [msg_processing decoded]) [msg_no_secrets decoded])
      as (-> & -> & -> & ->).
    destruct (logged_fields (logged w [msg_loaded (length bad)]) [msg_processing decoded])
      as (-> & -> & -> & ->).
    destruct (logged_fields w [msg_loaded (length bad)]) as (-> & -> & -> & ->).
    split; [reflexivity|]. left. repeat split. left. reflexivity. }
  set (v := logged (logged (logged w _) _) _).
  assert (env v = env w /\ repository v = repository w /\
          fetched v = fetched w /\ inserted v = inserted w) as (He & Hr & Hf & Hi).
  { subst v.
    destruct (logged_fields (logged (logged w [msg_loaded (length bad)])
                               [msg_processing decoded]) [msg_found decoded])
      as (-> & -> & -> & ->).
    destruct (logged_fields (logged w [msg_loaded (length bad)]) [msg_processing decoded])
      as (-> & -> & -> & ->).
    apply logged_fields. }
  rewrite He, Hr, Hf, Hi.
  match goal with |- context [clean_lines ?d ?o ?ls ?m ?w0] =>
    destruct (clean_lines_world d o ls m w0) as (r1 & m1 & ->);
    destruct (logged_fields w0 m1) as (He1 & Hr1 & Hf1 & Hi1) end.
  cbn [env repository fetched inserted] in He1, Hr1, Hf1, Hi1.
  destruct r1 as [[final n]|x].
  2: { cbn [fst snd]. rewrite He1, Hr1, Hf1, Hi1. split; [reflexivity|]. right.
       split; [reflexivity|]. left. repeat split. eexists. reflexivity. }
  destruct (utf8_encode (join_lines final)) as [encoded|x].
  2: { cbn [fst snd]. rewrite He1, Hr1, Hf1, Hi1. split; [reflexivity|]. right.
       split; [reflexivity|]. left. repeat split. eexists. reflexivity. }
  cbn [fst snd].
  match goal with |- context [logged ?w0 ?m] =>
    destruct (logged_fields w0 m) as (-> & -> & -> & ->) end.
  cbn [env repository fetched inserted]. rewrite He1, Hr1, Hf1, Hi1.
  split; [reflexivity|]. right. split; [reflexivity|]. right.
  exists (encoded ++ bytes_of LF). cbv zeta. repeat split.
Qed.

End FileInfoMore.

(** ** commit.py: the hexadecimal key *)

Section HexKey.

Lemma hex_digit_code (n : N) :
  (n < 16)%N -> N_of_ascii (hex_digit n) = (if (n <? 10)%N then 48 + n else 87 + n)%N.
Proof.
  intros Hn. unfold hex_digit. destruct (N.ltb_spec n 10); apply N_ascii_embedding; lia.
Qed.

Lemma hex_digit_inj (a c : N) :
  (a < 16)%N -> (c < 16)%N -> hex_digit a = hex_digit c -> a = c.
Proof.
  intros Ha Hc Heq. apply (f_equal N_of_ascii) in Heq.
  rewrite !hex_digit_code in Heq by assumption.
  destruct (N.ltb_spec a 10), (N.ltb_spec c 10); lia.
Qed.

Lemma byte_to_N_inj (x y : byte) : Byte.to_N x = Byte.to_N y -> x = y.
Proof.
  intros Heq. pose proof (Byte.of_to_N x) as Hx. rewrite Heq, Byte.of_to_N in Hx.
  congruence.
Qed.

(** X18. The key of the ledger identifies the commit: two ids have the same
    hexadecimal rendering only if they are the same bytes, and the rendering
    has two characters per byte. *)
Theorem commit_hash_identifies_id (a c : bytes) :
  (bytes_hex a = bytes_hex c <-> a = c) /\
  String.length (bytes_hex a) = (2 * length a)%nat.
Proof.
  split; [split; [|intros ->; reflexivity]|].
  - revert c; induction a as [|x a IH]; intros [|y c] Heq; try discriminate; [reflexivity|].
    cbn [bytes_hex] in Heq. cbv zeta in Heq. injection Heq as H1 H2 H3.
    pose proof (Byte.to_N_bounded x) as Hx. pose proof (Byte.to_N_bounded y) as Hy.
    apply hex_digit_inj in H1; [|apply N.Div0.div_lt_upper_bound; lia..].
    apply hex_digit_inj in H2; [|apply N.mod_lt; lia..].
    f_equal; [|apply IH; exact H3].
    apply byte_to_N_inj.
    rewrite (N.div_mod (Byte.to_N x) 16), (N.div_mod (Byte.to_N y) 16) by lia.
    rewrite H1, H2. reflexivity.
  - induction a as [|x a IH]; [reflexivity|]. cbn [bytes_hex String.length length].
    cbv zeta. cbn [String.length]. rewrite IH. lia.
Qed.

End HexKey.

(** ** The further properties at sample inputs *)

Section MoreSamples.
Import Sample.

Lemma total_commits_read_once_witness :
  let g := Commit.Globals (Some (PyInt 10)) None None in
  let r := Commit.record tenths "abc123" (Commit.World commit_env g [] []) in
  let r' := Commit.record tenths "abc123" (Commit.World commit_env_no_stats g [] []) in
  r.1 = r'.1 /\ Commit.glob r.2 = Commit.glob r'.2 /\
  Commit.progress_file r.2 = Commit.progress_file r'.2 /\
  Commit.callback_log r.2 = Commit.callback_log r'.2 /\
  Commit.total_commits (Commit.glob r.2) = Some (PyInt 10).
Proof.
  exact (total_commits_read_once tenths commit_env commit_env_no_stats
           (Commit.Globals (Some (PyInt 10)) None None) (PyInt 10) [] [] "abc123"
           eq_refl eq_refl eq_refl).
Defined.


Lemma non_numeric_total_raises_witness :
  exists log',
    Commit.record tenths "abc123"
      (Commit.World commit_env (Commit.Globals (Some PyNone) (Some ∅) (Some 0)) [] []) =
    (Raised TypeError,
     Commit.World commit_env
       (Commit.Globals (Some PyNone) (Some (∅ ∪ {["abc123"%string]})) (Some (0 + 1)))
       [] log').
Proof.
  apply (proj1 (non_numeric_total_raises tenths commit_env PyNone ∅ 0 [] [] "abc123"
                  eq_refl)).
  set_solver.
Defined.

Lemma logging_never_affects_ledger_witness :
  let w1 := Commit.start commit_env [] [] in
  let w2 := Commit.start (Commit.Environ (Commit.STATS_FILE commit_env) true false)
              [] ["earlier message"%string] in
  (Commit.run tenths ["abc123"; "abc123"]%string w1).1
  = (Commit.run tenths ["abc123"; "abc123"]%string w2).1 /\
  Commit.same_ledger (Commit.run tenths ["abc123"; "abc123"]%string w1).2
    (Commit.run tenths ["abc123"; "abc123"]%string w2).2.
Proof.
  apply (logging_never_affects_ledger tenths). repeat split.
Defined.

Lemma rerun_appends_again_witness :
  exists w1 w2 lines,
    Commit.run tenths ["abc123"]%string (Commit.start commit_env [] []) = (Returned tt, w1) /\
    length lines = 1%nat /\
    Commit.run tenths ["abc123"]%string
      (Commit.start commit_env (Commit.progress_file w1) (Commit.callback_log w1))
    = (Returned tt, w2) /\
    Commit.progress_file w2 = lines ++ lines.
Proof.
  destruct (rerun_appends_again tenths commit_env [] [] ["abc123"%string] 10 "10"
              eq_refl eq_refl) as (w1 & w2 & lines & H1 & _ & H3 & H4 & H5).
  exists w1, w2, lines. split; [exact H1|]. split; [exact H3|]. split; [exact H4 | exact H5].
Defined.

Lemma message_callback_logs_witness :
  Message.callback (bytes_of "SECRET") =
    (Message.redact (bytes_of "SECRET"),
     [Message.log_processing; Message.log_found; Message.log_redacted]) /\
  Message.redact (bytes_of "SECRET") <> bytes_of "SECRET".
Proof.
  apply (proj1 (message_callback_logs (bytes_of "SECRET"))).
  exists [], []. reflexivity.
Defined.

Lemma findings_load_as_set_witness :
  FileInfo.distinct_keys [(PyStr (text_of "a.txt"), PyInt 1)] /\
  (length [(PyStr (text_of "a.txt"), PyInt 1)] <= 2)%nat.
Proof.
  destruct (findings_load_as_set
              [PyDict [(text_of "File", PyStr (text_of "a.txt")); (text_of "StartLine", PyInt 1)];
               PyDict [(text_of "File", PyStr (text_of "a.txt"));
                       (text_of "StartLine", PyBool true)]]
              [(PyStr (text_of "a.txt"), PyInt 1)] eq_refl) as (Hd & _ & _ & Hlen).
  split; [exact Hd | exact Hlen].
Defined.

Lemma findings_file_not_a_list_witness :
  exists log',
    FileInfo.callback in_order (bytes_of "a.txt") mode_644 0%nat
      (world_of (Parsed (PyDict [])) sample_contents true []) =
    (Returned (bytes_of "a.txt", mode_644, 0%nat),
     FileInfo.World (FileInfo.Environ (Parsed (PyDict [])) true) [sample_contents] [] [] log').
Proof.
  apply (proj1 (findings_file_not_a_list in_order)
           (world_of (Parsed (PyDict [])) sample_contents true [])).
  left. reflexivity.
Defined.

Lemma non_integer_line_raises_witness :
  exists log',
    FileInfo.callback in_order (bytes_of "a.txt") mode_644 0%nat
      (world_of (findings_of [("a.txt"%string, PyStr (text_of "2"))]) sample_contents true []) =
    (Raised TypeError,
     FileInfo.World
       (FileInfo.Environ (findings_of [("a.txt"%string, PyStr (text_of "2"))]) true)
       [sample_contents] [0%nat] [] log').
Proof.
  apply (non_integer_line_raises in_order
           (world_of (findings_of [("a.txt"%string, PyStr (text_of "2"))]) sample_contents
              true [])
           (bytes_of "a.txt") mode_644 0%nat
           [(PyStr (text_of "a.txt"), PyStr (text_of "2"))] eq_refl).
  - constructor. split; reflexivity.
  - reflexivity.
Defined.

Lemma list_driver_reads_back (r : list bytes) (c : bytes) :
  FileInfo.get_contents_by_identifier (FileInfo.insert_file_with_contents r c).2
    (FileInfo.insert_file_with_contents r c).1 = c.
Proof.
  cbn. rewrite lookup_app_r by lia. rewrite Nat.sub_diag. reflexivity.
Qed.

Lemma scrub_is_idempotent_witness :
  exists contents id1 w1 id2 w2,
    FileInfo.callback in_order (bytes_of "a.txt") mode_644 0%nat
      (file_world sample_contents "a.txt" 2) =
    (Returned (bytes_of "a.txt", mode_644, id1), w1) /\
    FileInfo.inserted w1 = [contents] /\
    FileInfo.callback in_order (bytes_of "a.txt") mode_644 id1 w1 =
    (Returned (bytes_of "a.txt", mode_644, id2), w2) /\
    FileInfo.inserted w2 = [contents; contents].
Proof.
  destruct (scrub_is_idempotent in_order (file_world sample_contents "a.txt" 2)
              (bytes_of "a.txt") mode_644 0%nat _ list_driver_reads_back eq_refl eq_refl
              (sample_comparable _ _ _) (reflexivity _))
    as (contents & id1 & w1 & id2 & w2 & H1 & H2 & H3 & H4).
  exists contents, id1, w1, id2, w2.
  split; [exact H1|]. split; [exact H2|]. split; [exact H3|].
  rewrite H4, H2. reflexivity.
Defined.

Lemma scrub_writes_valid_utf8_witness :
  exists contents new_id w',
    FileInfo.callback in_order (bytes_of "a.txt") mode_644 0%nat
      (file_world binary_contents "a.txt" 2) =
    (Returned (bytes_of "a.txt", mode_644, new_id), w') /\
    utf8_encode (utf8_decode contents) = Returned contents /\
    contents <> binary_contents.
Proof.
  destruct (scrub_writes_valid_utf8 in_order (file_world binary_contents "a.txt" 2)
              (bytes_of "a.txt") mode_644 0%nat _ eq_refl eq_refl
              (sample_comparable _ _ _) (reflexivity _))
    as (contents & new_id & w' & Hcall & _ & Hvalid & Hbin).
  exists contents, new_id, w'. split; [exact Hcall|]. split; [exact Hvalid|].
  apply Hbin. discriminate.
Defined.

Lemma two_findings_comparable :
  FileInfo.comparable (text_of "a.txt")
    [(PyStr (text_of "a.txt"), PyInt 1); (PyStr (text_of "a.txt"), PyInt 2)].
Proof. repeat constructor; intros _; eexists; reflexivity. Qed.

Lemma iteration_order_irrelevant_witness :
  let w := world_of (findings_of [("a.txt"%string, PyInt 1); ("a.txt"%string, PyInt 2)])
             sample_contents true [] in
  let r1 := FileInfo.callback in_order (bytes_of "a.txt") mode_644 0%nat w in
  let r2 := FileInfo.callback reversed (bytes_of "a.txt") mode_644 0%nat w in
  r1.1 = r2.1 /\ FileInfo.inserted r1.2 = FileInfo.inserted r2.2 /\
  FileInfo.callback_log r1.2 ≡ₚ FileInfo.callback_log r2.2.
Proof.
  cbv zeta.
  destruct (iteration_order_irrelevant in_order reversed
              (world_of (findings_of [("a.txt"%string, PyInt 1); ("a.txt"%string, PyInt 2)])
                 sample_contents true [])
              (bytes_of "a.txt") mode_644 0%nat _ eq_refl two_findings_comparable
              (reflexivity _) (Permutation_sym (Permutation_rev _)))
    as (H1 & _ & _ & H4 & H5).
  split; [exact H1|]. split; [exact H4 | exact H5].
Defined.

Lemma logging_never_affects_scrubbing_witness :
  let w1 := world_of (findings "a.txt" 2) sample_contents true [] in
  let w2 := world_of (findings "a.txt" 2) sample_contents false [text_of "earlier"] in
  (FileInfo.callback in_order (bytes_of "a.txt") mode_644 0%nat w1).1
  = (FileInfo.callback in_order (bytes_of "a.txt") mode_644 0%nat w2).1 /\
  FileInfo.same_files (FileInfo.callback in_order (bytes_of "a.txt") mode_644 0%nat w1).2
    (FileInfo.callback in_order (bytes_of "a.txt") mode_644 0%nat w2).2.
Proof.
  apply (logging_never_affects_scrubbing in_order). repeat split.
Defined.

Lemma lines_modified_counts_lines_witness :
  (FileInfo.clean_lines (text_of "a.txt")
     (in_order [(PyStr (text_of "a.txt"), PyInt 1)])
     [text_of "x"; text_of "y"] 0
     (world_of (findings_of [("a.txt"%string, PyInt 1); ("a.txt"%string, PyBool true)])
        sample_contents true [])).1 =
  Returned ([[]; text_of "y"], 1).
Proof.
  exact (lines_modified_counts_lines in_order
           (findings_of [("a.txt"%string, PyInt 1); ("a.txt"%string, PyBool true)])
           [(PyStr (text_of "a.txt"), PyInt 1)] (text_of "a.txt")
           [text_of "x"; text_of "y"] _ eq_refl (sample_comparable _ _ _) (reflexivity _)).
Defined.

End MoreSamples.
